(** * The code-generation page of the Framework Hub

  A shallow embedding of [src/app/code-generation/page.tsx]: the template
  renderer [generateMockCode], the request handler [generateCode] with the
  history it maintains in component state, and the export helpers
  [getFileExtension] and [downloadCode].

  Strings are [string]; a character stands for one UTF-16 code unit below
  256, which covers every literal of the page.  Integers read from the
  clock are [Z].  The component state of React is a record that the
  handlers take and return.  The renderer is given a second time as
  syntax with an evaluator ([Syntax]), to state what its body reads and
  does. *)

From Stdlib Require Import ZArith List Sorted String Ascii Bool Lia.
From Stdlib Require Import DecimalString DecimalZ.
Import ListNotations.

Open Scope string_scope.

(** ** Host-language primitives used by the page *)

Module JS.

(** The double-quote character, written out because the templates embed
    it next to the interpolated text. *)
Definition dq : string := String "034"%char EmptyString.

(** [WhiteSpace] and [LineTerminator] code units, as [String.prototype.trim]
    strips them: TAB, LF, VT, FF, CR, SP and NBSP are the ones below 256. *)
Definition isWhiteSpace (c : ascii) : bool :=
  match c with
  | "009" | "010" | "011" | "012" | "013" | " " | "160" => true
  | _ => false
  end%char.

Fixpoint trimStart (s : string) : string :=
  match s with
  | EmptyString => EmptyString
  | String c s' => if isWhiteSpace c then trimStart s' else s
  end.

Fixpoint trimEnd (s : string) : string :=
  match s with
  | EmptyString => EmptyString
  | String c s' =>
      match trimEnd s' with
      | EmptyString => if isWhiteSpace c then EmptyString else String c EmptyString
      | t => String c t
      end
  end.

(** [s.trim()] *)
Definition trim (s : string) : string := trimEnd (trimStart s).

(** Every code unit of [s] is white space (this includes the empty string). *)
Fixpoint blank (s : string) : bool :=
  match s with
  | EmptyString => true
  | String c s' => isWhiteSpace c && blank s'
  end.

(** ToBoolean on a string: only the empty string is falsy. *)
Definition truthy (s : string) : bool :=
  match s with
  | EmptyString => false
  | String _ _ => true
  end.

(** [s.toLowerCase()] on code units below 256: A-Z, and the Latin-1
    capitals U+00C0..U+00DE except the multiplication sign U+00D7. *)
Definition lowerChar (c : ascii) : ascii :=
  let n := nat_of_ascii c in
  if (((65 <=? n) && (n <=? 90)) || ((192 <=? n) && (n <=? 222) && negb (n =? 215)))%nat
  then ascii_of_nat (n + 32)
  else c.

Fixpoint toLowerCase (s : string) : string :=
  match s with
  | EmptyString => EmptyString
  | String c s' => String (lowerChar c) (toLowerCase s')
  end.

(** [n.toString()] for an integral Number such as [Date.now()]: the
    decimal digits, with a leading minus sign below zero. *)
Definition Number_toString (n : Z) : string :=
  NilEmpty.string_of_int (Z.to_int n).

(** [s.includes(d)]: [d] occurs in [s] at some position. *)
Fixpoint includes (s d : string) : bool :=
  prefix d s ||
  match s with
  | EmptyString => false
  | String _ s' => includes s' d
  end.

(** Values a property read of an object literal with string-valued
    properties can produce: [undefined], an own property, or what the key
    names on [Object.prototype], which every object literal inherits from
    (a built-in function; for [__proto__] the prototype object itself). *)
Inductive value : Type :=
| Undefined
| Str (s : string)
| Inherited (key : string).

(** The property names of [Object.prototype] in a browser. *)
Definition objectPrototype : list string :=
  [ "constructor"; "__defineGetter__"; "__defineSetter__"; "hasOwnProperty";
    "__lookupGetter__"; "__lookupSetter__"; "isPrototypeOf";
    "propertyIsEnumerable"; "toString"; "valueOf"; "__proto__";
    "toLocaleString" ].

Fixpoint own (props : list (string * string)) (key : string) : option string :=
  match props with
  | [] => None
  | (k, v) :: props' => if key =? k then Some v else own props' key
  end.

(** [o[key]]: own properties first, then the prototype chain. *)
Definition get (props : list (string * string)) (key : string) : value :=
  match own props key with
  | Some v => Str v
  | None => if existsb (String.eqb key) objectPrototype then Inherited key else Undefined
  end.

(** ToBoolean: [undefined] and the empty string are falsy, objects truthy. *)
Definition toBoolean (v : value) : bool :=
  match v with
  | Undefined => false
  | Str s => truthy s
  | Inherited _ => true
  end.

(** [a || b] *)
Definition logicalOr (a b : value) : value := if toBoolean a then a else b.

End JS.

(** ** The template literals of [generateMockCode] *)

Module Template.
Import JS.

Definition javascript_function (prompt : string) : string :=
  "// Generated JavaScript function based on: " ++ dq ++ prompt ++ dq ++ "
function processData(input) {
    try {
        // Validate input
        if (!input || typeof input !== 'object') {
            throw new Error('Invalid input provided');
        }
        
        // Process the data
        const result = {
            processed: true,
            timestamp: new Date().toISOString(),
            data: input
        };
        
        // Apply transformations
        if (input.items && Array.isArray(input.items)) {
            result.data.items = input.items.map(item => ({
                ...item,
                processed: true
            }));
        }
        
        return result;
    } catch (error) {
        console.error('Processing failed:', error);
        return { error: error.message };
    }
}

// Usage example
const sampleData = { items: [{ id: 1, name: 'test' }] };
const result = processData(sampleData);
console.log(result);".

Definition javascript_api (prompt : string) : string :=
  "// Generated Express.js API endpoint based on: " ++ dq ++ prompt ++ dq ++ "
const express = require('express');
const router = express.Router();

// Middleware for validation
const validateRequest = (req, res, next) => {
    const { body } = req;
    
    if (!body || Object.keys(body).length === 0) {
        return res.status(400).json({
            error: 'Request body is required'
        });
    }
    
    next();
};

// Main API endpoint
router.post('/api/process', validateRequest, async (req, res) => {
    try {
        const { data } = req.body;
        
        // Process the request
        const processedData = {
            id: Date.now(),
            originalData: data,
            processed: true,
            timestamp: new Date().toISOString()
        };
        
        // Simulate async processing
        await new Promise(resolve => setTimeout(resolve, 100));
        
        res.status(200).json({
            success: true,
            data: processedData
        });
        
    } catch (error) {
        console.error('API Error:', error);
        res.status(500).json({
            error: 'Internal server error',
            message: error.message
        });
    }
});

module.exports = router;".

Definition python_function (prompt : string) : string :=
  "# Generated Python function based on: " ++ dq ++ prompt ++ dq ++ "
from typing import Dict, Any, Optional
import json
from datetime import datetime

def process_data(input_data: Dict[str, Any]) -> Dict[str, Any]:
    " ++ dq ++ dq ++ dq ++ "
    Process input data and return structured result.
    
    Args:
        input_data: Dictionary containing data to process
        
    Returns:
        Dictionary with processed results
        
    Raises:
        ValueError: If input data is invalid
    " ++ dq ++ dq ++ dq ++ "
    try:
        # Validate input
        if not isinstance(input_data, dict):
            raise ValueError(" ++ dq ++ "Input must be a dictionary" ++ dq ++ ")
        
        # Process the data
        result = {
            " ++ dq ++ "processed" ++ dq ++ ": True,
            " ++ dq ++ "timestamp" ++ dq ++ ": datetime.now().isoformat(),
            " ++ dq ++ "data" ++ dq ++ ": input_data.copy()
        }
        
        # Apply transformations
        if " ++ dq ++ "items" ++ dq ++ " in input_data and isinstance(input_data[" ++ dq ++ "items" ++ dq ++ "], list):
            result[" ++ dq ++ "data" ++ dq ++ "][" ++ dq ++ "items" ++ dq ++ "] = [
                {**item, " ++ dq ++ "processed" ++ dq ++ ": True} 
                for item in input_data[" ++ dq ++ "items" ++ dq ++ "]
            ]
        
        return result
        
    except Exception as e:
        return {" ++ dq ++ "error" ++ dq ++ ": str(e)}

# Usage example
if __name__ == " ++ dq ++ "__main__" ++ dq ++ ":
    sample_data = {" ++ dq ++ "items" ++ dq ++ ": [{" ++ dq ++ "id" ++ dq ++ ": 1, " ++ dq ++ "name" ++ dq ++ ": " ++ dq ++ "test" ++ dq ++ "}]}
    result = process_data(sample_data)
    print(json.dumps(result, indent=2))".

Definition python_class (prompt : string) : string :=
  "# Generated Python class based on: " ++ dq ++ prompt ++ dq ++ "
from typing import List, Dict, Any, Optional
from datetime import datetime
import logging

class DataProcessor:
    " ++ dq ++ dq ++ dq ++ "
    A class for processing and managing data operations.
    " ++ dq ++ dq ++ dq ++ "
    
    def __init__(self, config: Optional[Dict[str, Any]] = None):
        " ++ dq ++ dq ++ dq ++ "
        Initialize the DataProcessor.
        
        Args:
            config: Optional configuration dictionary
        " ++ dq ++ dq ++ dq ++ "
        self.config = config or {}
        self.processed_items: List[Dict[str, Any]] = []
        self.logger = logging.getLogger(__name__)
        
    def add_item(self, item: Dict[str, Any]) -> bool:
        " ++ dq ++ dq ++ dq ++ "
        Add an item to be processed.
        
        Args:
            item: Dictionary containing item data
            
        Returns:
            True if item was added successfully
        " ++ dq ++ dq ++ dq ++ "
        try:
            validated_item = self._validate_item(item)
            self.processed_items.append(validated_item)
            self.logger.info(f" ++ dq ++ "Added item: {validated_item.get('id', 'unknown')}" ++ dq ++ ")
            return True
        except Exception as e:
            self.logger.error(f" ++ dq ++ "Failed to add item: {e}" ++ dq ++ ")
            return False
    
    def process_all(self) -> List[Dict[str, Any]]:
        " ++ dq ++ dq ++ dq ++ "
        Process all added items.
        
        Returns:
            List of processed items
        " ++ dq ++ dq ++ dq ++ "
        results = []
        for item in self.processed_items:
            processed_item = self._process_item(item)
            results.append(processed_item)
        
        return results
    
    def _validate_item(self, item: Dict[str, Any]) -> Dict[str, Any]:
        " ++ dq ++ dq ++ dq ++ "Validate and prepare item for processing." ++ dq ++ dq ++ dq ++ "
        if not isinstance(item, dict):
            raise ValueError(" ++ dq ++ "Item must be a dictionary" ++ dq ++ ")
        
        return {
            **item,
            " ++ dq ++ "added_at" ++ dq ++ ": datetime.now().isoformat(),
            " ++ dq ++ "status" ++ dq ++ ": " ++ dq ++ "pending" ++ dq ++ "
        }
    
    def _process_item(self, item: Dict[str, Any]) -> Dict[str, Any]:
        " ++ dq ++ dq ++ dq ++ "Process a single item." ++ dq ++ dq ++ dq ++ "
        return {
            **item,
            " ++ dq ++ "processed_at" ++ dq ++ ": datetime.now().isoformat(),
            " ++ dq ++ "status" ++ dq ++ ": " ++ dq ++ "completed" ++ dq ++ "
        }

# Usage example
if __name__ == " ++ dq ++ "__main__" ++ dq ++ ":
    processor = DataProcessor({" ++ dq ++ "debug" ++ dq ++ ": True})
    processor.add_item({" ++ dq ++ "id" ++ dq ++ ": 1, " ++ dq ++ "name" ++ dq ++ ": " ++ dq ++ "test item" ++ dq ++ "})
    results = processor.process_all()
    print(results)".

Definition java_class (prompt : string) : string :=
  "// Generated Java class based on: " ++ dq ++ prompt ++ dq ++ "
import java.time.LocalDateTime;
import java.time.format.DateTimeFormatter;
import java.util.*;
import java.util.logging.Logger;

public class DataProcessor {
    private static final Logger logger = Logger.getLogger(DataProcessor.class.getName());
    private final Map<String, Object> config;
    private final List<Map<String, Object>> processedItems;
    
    public DataProcessor() {
        this(new HashMap<>());
    }
    
    public DataProcessor(Map<String, Object> config) {
        this.config = config;
        this.processedItems = new ArrayList<>();
    }
    
    public boolean addItem(Map<String, Object> item) {
        try {
            Map<String, Object> validatedItem = validateItem(item);
            processedItems.add(validatedItem);
            logger.info(" ++ dq ++ "Added item: " ++ dq ++ " + validatedItem.getOrDefault(" ++ dq ++ "id" ++ dq ++ ", " ++ dq ++ "unknown" ++ dq ++ "));
            return true;
        } catch (Exception e) {
            logger.severe(" ++ dq ++ "Failed to add item: " ++ dq ++ " + e.getMessage());
            return false;
        }
    }
    
    public List<Map<String, Object>> processAll() {
        List<Map<String, Object>> results = new ArrayList<>();
        for (Map<String, Object> item : processedItems) {
            Map<String, Object> processedItem = processItem(item);
            results.add(processedItem);
        }
        return results;
    }
    
    private Map<String, Object> validateItem(Map<String, Object> item) {
        if (item == null) {
            throw new IllegalArgumentException(" ++ dq ++ "Item cannot be null" ++ dq ++ ");
        }
        
        Map<String, Object> validatedItem = new HashMap<>(item);
        validatedItem.put(" ++ dq ++ "addedAt" ++ dq ++ ", LocalDateTime.now().format(DateTimeFormatter.ISO_LOCAL_DATE_TIME));
        validatedItem.put(" ++ dq ++ "status" ++ dq ++ ", " ++ dq ++ "pending" ++ dq ++ ");
        
        return validatedItem;
    }
    
    private Map<String, Object> processItem(Map<String, Object> item) {
        Map<String, Object> processedItem = new HashMap<>(item);
        processedItem.put(" ++ dq ++ "processedAt" ++ dq ++ ", LocalDateTime.now().format(DateTimeFormatter.ISO_LOCAL_DATE_TIME));
        processedItem.put(" ++ dq ++ "status" ++ dq ++ ", " ++ dq ++ "completed" ++ dq ++ ");
        
        return processedItem;
    }
    
    // Usage example
    public static void main(String[] args) {
        DataProcessor processor = new DataProcessor();
        
        Map<String, Object> item = new HashMap<>();
        item.put(" ++ dq ++ "id" ++ dq ++ ", 1);
        item.put(" ++ dq ++ "name" ++ dq ++ ", " ++ dq ++ "test item" ++ dq ++ ");
        
        processor.addItem(item);
        List<Map<String, Object>> results = processor.processAll();
        
        System.out.println(results);
    }
}".

Definition fallback (prompt language type : string) : string :=
  "// Generated " ++ language ++ " " ++ type ++ " based on: " ++ dq ++ prompt ++ dq ++ "
// This is a placeholder implementation
// Please provide more specific requirements for better code generation

console.log(" ++ dq ++ "Generated code for: " ++ prompt ++ dq ++ ");".

End Template.

(** ** The page component *)

Module Page.
Import JS.

(** *** Data *)

(** [interface GeneratedCode]; [timestamp] is the epoch value of the [Date]. *)
Record GeneratedCode : Type := mkGeneratedCode
  { id : string;
    language : string;
    type : string;
    code : string;
    description : string;
    timestamp : Z }.

(** The argument object of a [toast({...})] call. *)
Module Toast.
Record t : Type := mk
  { title : string;
    description : string;
    variant : option string }.
End Toast.

(** Calls the handlers make to their collaborators, recorded in order. *)
Inductive Call : Type :=
| CallToast (t : Toast.t)
| CallSetTimeout (ms : Z)
| CallGenerateMockCode (prompt language type : string).

(** The [useState] cells of [CodeGenerationPage], and the trace of
    collaborator calls made so far (oldest first). *)
Record State : Type := mkState
  { prompt : string;
    selectedLanguage : string;
    selectedType : string;
    isGenerating : bool;
    generatedCodes : list GeneratedCode;
    trace : list Call }.

Definition initial : State :=
  {| prompt := EmptyString;
     selectedLanguage := "javascript";
     selectedType := "function";
     isGenerating := false;
     generatedCodes := [];
     trace := [] |}.

Definition setPrompt (v : string) (s : State) : State :=
  {| prompt := v;
     selectedLanguage := selectedLanguage s;
     selectedType := selectedType s;
     isGenerating := isGenerating s;
     generatedCodes := generatedCodes s;
     trace := trace s |}.

Definition setSelectedLanguage (v : string) (s : State) : State :=
  {| prompt := prompt s;
     selectedLanguage := v;
     selectedType := selectedType s;
     isGenerating := isGenerating s;
     generatedCodes := generatedCodes s;
     trace := trace s |}.

Definition setSelectedType (v : string) (s : State) : State :=
  {| prompt := prompt s;
     selectedLanguage := selectedLanguage s;
     selectedType := v;
     isGenerating := isGenerating s;
     generatedCodes := generatedCodes s;
     trace := trace s |}.

Definition setIsGenerating (v : bool) (s : State) : State :=
  {| prompt := prompt s;
     selectedLanguage := selectedLanguage s;
     selectedType := selectedType s;
     isGenerating := v;
     generatedCodes := generatedCodes s;
     trace := trace s |}.

(** The functional form [setGeneratedCodes((prev) => ...)]. *)
Definition setGeneratedCodes
    (f : list GeneratedCode -> list GeneratedCode) (s : State) : State :=
  {| prompt := prompt s;
     selectedLanguage := selectedLanguage s;
     selectedType := selectedType s;
     isGenerating := isGenerating s;
     generatedCodes := f (generatedCodes s);
     trace := trace s |}.

Definition record (c : Call) (s : State) : State :=
  {| prompt := prompt s;
     selectedLanguage := selectedLanguage s;
     selectedType := selectedType s;
     isGenerating := isGenerating s;
     generatedCodes := generatedCodes s;
     trace := (trace s ++ [c])%list |}.

Definition toast (t : Toast.t) (s : State) : State := record (CallToast t) s.

(** *** generateMockCode *)

(** A run of statements either executed a [return v] or fell through. *)
Definition block : Type := option string.

Definition when (c : bool) (b : block) : block := if c then b else None.

Definition next (a b : block) : block :=
  match a with
  | Some v => Some v
  | None => b
  end.

Notation "a ;; b" := (next a b) (at level 61, right associativity).

Definition generateMockCode (prompt language type : string) : string :=
  let lowerPrompt := toLowerCase prompt in
  match
    when (language =? "javascript")
      (when (type =? "function") (Some (Template.javascript_function prompt)) ;;
       when (type =? "api") (Some (Template.javascript_api prompt))) ;;
    when (language =? "python")
      (when (type =? "function") (Some (Template.python_function prompt)) ;;
       when (type =? "class") (Some (Template.python_class prompt))) ;;
    when (language =? "java")
      (when (type =? "class") (Some (Template.java_class prompt)))
  with
  | Some v => v
  | None => Template.fallback prompt language type
  end.

(** *** generateCode *)

Definition promptRequired : Toast.t :=
  {| Toast.title := "Prompt Required";
     Toast.description := "Please enter a description of what you want to generate.";
     Toast.variant := Some "destructive" |}.

Definition codeGenerated (language type : string) : Toast.t :=
  {| Toast.title := "Code Generated";
     Toast.description := language ++ " " ++ type ++ " has been generated successfully.";
     Toast.variant := None |}.

(** What the closure of [generateCode] holds of the render it was made in. *)
Record Captured : Type := mkCaptured
  { c_prompt : string;
    c_language : string;
    c_type : string }.

Definition newCode (c : Captured) (now stamp : Z) : GeneratedCode :=
  {| id := Number_toString now;
     language := c_language c;
     type := c_type c;
     code := generateMockCode (c_prompt c) (c_language c) (c_type c);
     description := c_prompt c;
     timestamp := stamp |}.

(** [generateCode] up to its [await]: the validation gate, and for an
    accepted prompt the pending flag and the timer.  The second component
    is the suspended rest of the call, if there is one. *)
Definition generateCode_begin (s : State) : State * option Captured :=
  if negb (truthy (trim (prompt s))) then
    (toast promptRequired s, None)
  else
    (record (CallSetTimeout 2000) (setIsGenerating true s),
     Some {| c_prompt := prompt s;
             c_language := selectedLanguage s;
             c_type := selectedType s |}).

(** [generateCode] from the [await] on, run on the state found when the
    timer fires; [now] is the reading of [Date.now()] and [stamp] that of
    [new Date()]. *)
Definition generateCode_resume (c : Captured) (now stamp : Z) (s : State) : State :=
  let s := record (CallGenerateMockCode (c_prompt c) (c_language c) (c_type c)) s in
  let s := setGeneratedCodes (fun prev => newCode c now stamp :: prev) s in
  let s := setPrompt EmptyString s in
  let s := setIsGenerating false s in
  toast (codeGenerated (c_language c) (c_type c)) s.

(** One whole call with nothing else happening during the wait. *)
Definition generateCode (now stamp : Z) (s : State) : State :=
  match generateCode_begin s with
  | (s', None) => s'
  | (s', Some c) => generateCode_resume c now stamp s'
  end.

(** A request as the presentation layer makes it: the three inputs are
    set, then the button handler runs; the clock readings are what the
    call will see on completion. *)
Record Request : Type := mkRequest
  { r_language : string;
    r_type : string;
    r_description : string;
    r_now : Z;
    r_stamp : Z }.

Definition captured (r : Request) : Captured :=
  {| c_prompt := r_description r;
     c_language := r_language r;
     c_type := r_type r |}.

(** The state in which the handler of a request runs: the three inputs
    hold what the request supplies. *)
Definition entered (r : Request) (s : State) : State :=
  setPrompt (r_description r)
    (setSelectedType (r_type r)
       (setSelectedLanguage (r_language r) s)).

Definition generate (r : Request) (s : State) : State :=
  generateCode (r_now r) (r_stamp r) (entered r s).

Definition generate_all (rs : list Request) (s : State) : State :=
  fold_left (fun s r => generate r s) rs s.

(** *** Export *)

Definition extensions : list (string * string) :=
  [ ("javascript", "js");
    ("typescript", "ts");
    ("python", "py");
    ("java", "java");
    ("go", "go");
    ("rust", "rs");
    ("cpp", "cpp");
    ("csharp", "cs") ].

Definition getFileExtension (language : string) : value :=
  logicalOr (get extensions language) (Str "txt").

(** What [downloadCode] hands to the browser: the blob and the [download]
    attribute of the anchor it clicks. *)
Record Download : Type := mkDownload
  { blob : string;
    blob_type : string;
    download : string }.

Section Host.

(** The text the host prints for the built-in found under a key of
    [Object.prototype]; its wording is left to the implementation. *)
Variable builtinToString : string -> string.

(** ToString, as a template literal applies it to an interpolated value. *)
Definition toString (v : value) : string :=
  match v with
  | Undefined => "undefined"
  | Str s => s
  | Inherited key => builtinToString key
  end.

Definition downloadCode (code : GeneratedCode) : Download :=
  let extension := getFileExtension (language code) in
  {| blob := Page.code code;
     blob_type := "text/plain";
     download :=
       "generated-" ++ type code ++ "-" ++ id code ++ "." ++ toString extension |}.

End Host.

End Page.

(** ** Notions used to state the properties *)

Module Spec.
Import JS Page.

(** The template catalog as the specification describes it: a table from
    (language, code type) to a render function, and a lookup that finds
    an entry or nothing. *)
Definition catalog : list ((string * string) * (string -> string)) :=
  [ (("javascript", "function"), Template.javascript_function);
    (("javascript", "api"), Template.javascript_api);
    (("python", "function"), Template.python_function);
    (("python", "class"), Template.python_class);
    (("java", "class"), Template.java_class) ].

Definition pair_eqb (a b : string * string) : bool :=
  (fst a =? fst b) && (snd a =? snd b).

Fixpoint lookup_in (tbl : list ((string * string) * (string -> string)))
    (k : string * string) : option (string -> string) :=
  match tbl with
  | [] => None
  | (k', f) :: tbl' => if pair_eqb k k' then Some f else lookup_in tbl' k
  end.

Definition lookup (language type : string) : option (string -> string) :=
  lookup_in catalog (language, type).

(** A request has a description that is neither empty nor white space
    only, so that it passes the validation gate. *)
Definition accepted (r : Request) : bool := negb (blank (r_description r)).

(** A template embeds its argument: a fixed non-empty text, the argument,
    and a rest (in which the argument may occur again). *)
Definition embeds (f : string -> string) : Prop :=
  exists (head : string) (tail : string -> string),
    head <> EmptyString /\ forall p, f p = head ++ p ++ tail p.

(** The artifact an accepted request ends up as. *)
Definition artifact (r : Request) : GeneratedCode :=
  newCode (captured r) (r_now r) (r_stamp r).

(** A retention policy with cap [N], in the words of the specification:
    after any successful requests the history holds at most [N] artifacts,
    and the request that would make it [N + 1] evicts the earliest one. *)
Definition retains_at_most (N : nat) : Prop :=
  forall rs : list Request,
    forallb accepted rs = true ->
    List.length (generatedCodes (generate_all rs initial)) <= N.

Definition evicts_earliest (N : nat) : Prop :=
  forall (r : Request) (rs : list Request),
    forallb accepted (r :: rs) = true ->
    List.length (r :: rs) = S N ->
    List.length (generatedCodes (generate_all (r :: rs) initial)) = N /\
    ~ In (artifact r) (generatedCodes (generate_all (r :: rs) initial)).

Definition bounded_history (N : nat) : Prop :=
  retains_at_most N /\ evicts_earliest N.


End Spec.

(** ** The page as the user drives it *)

(** The controls that [CodeGenerationPage] renders and the handlers it
    attaches to them, as a machine that takes one user or timer event at
    a time.  A call of [generateCode] that reached its [await] waits in
    the browser until its timer fires. *)

Module Session.
Import JS Page.

(** The options of the two selectors, as (value, label). *)
Definition languages : list (string * string) :=
  [ ("javascript", "JavaScript");
    ("python", "Python");
    ("java", "Java");
    ("typescript", "TypeScript");
    ("go", "Go");
    ("rust", "Rust");
    ("cpp", "C++");
    ("csharp", "C#") ].

Definition codeTypes : list (string * string) :=
  [ ("function", "Function");
    ("class", "Class");
    ("api", "API Endpoint");
    ("component", "UI Component");
    ("algorithm", "Algorithm");
    ("test", "Unit Test");
    ("config", "Configuration");
    ("script", "Script") ].

Definition quickPrompts : list string :=
  [ "Create a REST API endpoint for user authentication";
    "Generate a data validation function";
    "Build a responsive React component";
    "Create a database connection class";
    "Generate unit tests for a calculator function";
    "Build a file upload handler";
    "Create a caching mechanism";
    "Generate a configuration parser" ].

(** The page state together with what lives outside React: the calls of
    [generateCode] suspended at their [await] (oldest first; their timers
    all run for the same time), the clipboard, and the files handed to
    the browser for saving. *)
Record Browser : Type := mkBrowser
  { page : State;
    waiting : list Captured;
    clipboard : option string;
    saved : list Download }.

Definition start : Browser :=
  {| page := initial; waiting := []; clipboard := None; saved := [] |}.

Definition onPage (f : State -> State) (b : Browser) : Browser :=
  {| page := f (page b);
     waiting := waiting b;
     clipboard := clipboard b;
     saved := saved b |}.

Definition codeCopied : Toast.t :=
  {| Toast.title := "Code Copied";
     Toast.description := "Code has been copied to clipboard.";
     Toast.variant := None |}.

(** [copyCode]: the write to the clipboard is started and not awaited,
    the toast follows at once; [granted] tells whether the browser lets
    the write through. *)
Definition copyCode (code : string) (granted : bool) (b : Browser) : Browser :=
  {| page := toast codeCopied (page b);
     waiting := waiting b;
     clipboard := if granted then Some code else clipboard b;
     saved := saved b |}.

(** The Generate button: [disabled={isGenerating}], [onClick={generateCode}]. *)
Definition generateDisabled (s : State) : bool := isGenerating s.

Definition generateLabel (s : State) : string :=
  if isGenerating s then "Generating..." else "Generate Code".

Inductive Event : Type :=
| ChangePrompt (v : string)
| ClickQuickPrompt (k : nat)
| ChooseLanguage (k : nat)
| ChooseType (k : nat)
| ClickGenerate
| TimerFires (now stamp : Z)
| ClickCopy (k : nat) (granted : bool)
| ClickDownload (k : nat).

Section Host.

Variable builtinToString : string -> string.

(** One event.  An index that names no option, no quick prompt or no
    card has nothing to click on; the timer event with nothing waiting
    does not occur.  Both leave the browser as it is. *)
Definition step (e : Event) (b : Browser) : Browser :=
  match e with
  | ChangePrompt v => onPage (setPrompt v) b
  | ClickQuickPrompt k =>
      match nth_error quickPrompts k with
      | Some quickPrompt => onPage (setPrompt quickPrompt) b
      | None => b
      end
  | ChooseLanguage k =>
      match nth_error languages k with
      | Some (v, _) => onPage (setSelectedLanguage v) b
      | None => b
      end
  | ChooseType k =>
      match nth_error codeTypes k with
      | Some (v, _) => onPage (setSelectedType v) b
      | None => b
      end
  | ClickGenerate =>
      if generateDisabled (page b) then b
      else
        let (s, rest) := generateCode_begin (page b) in
        {| page := s;
           waiting :=
             (waiting b ++ match rest with Some c => [c] | None => [] end)%list;
           clipboard := clipboard b;
           saved := saved b |}
  | TimerFires now stamp =>
      match waiting b with
      | [] => b
      | c :: rest =>
          {| page := generateCode_resume c now stamp (page b);
             waiting := rest;
             clipboard := clipboard b;
             saved := saved b |}
      end
  | ClickCopy k granted =>
      match nth_error (generatedCodes (page b)) k with
      | Some shown => copyCode (code shown) granted b
      | None => b
      end
  | ClickDownload k =>
      match nth_error (generatedCodes (page b)) k with
      | Some shown =>
          {| page := page b;
             waiting := waiting b;
             clipboard := clipboard b;
             saved := (saved b ++ [downloadCode builtinToString shown])%list |}
      | None => b
      end
  end.

Definition run (es : list Event) (b : Browser) : Browser :=
  fold_left (fun b e => step e b) es b.

End Host.

Definition isTimerFires (e : Event) : bool :=
  match e with
  | TimerFires _ _ => true
  | _ => false
  end.

Definition isExport (e : Event) : bool :=
  match e with
  | ClickCopy _ _ | ClickDownload _ => true
  | _ => false
  end.

(** Two browsers that differ at most in the trace, the clipboard and the
    saved files. *)
Definition same_generation (b1 b2 : Browser) : Prop :=
  prompt (page b1) = prompt (page b2) /\
  selectedLanguage (page b1) = selectedLanguage (page b2) /\
  selectedType (page b1) = selectedType (page b2) /\
  isGenerating (page b1) = isGenerating (page b2) /\
  generatedCodes (page b1) = generatedCodes (page b2) /\
  waiting b1 = waiting b2.

(** Classifiers of the recorded calls. *)
Definition isRender (c : Call) : bool :=
  match c with
  | CallGenerateMockCode _ _ _ => true
  | _ => false
  end.

Definition isTimer (c : Call) : bool :=
  match c with
  | CallSetTimeout _ => true
  | _ => false
  end.

Definition isToast (c : Call) : bool :=
  match c with
  | CallToast _ => true
  | _ => false
  end.

Definition isToastTitled (title : string) (c : Call) : bool :=
  match c with
  | CallToast t => Toast.title t =? title
  | _ => false
  end.

Definition count (f : Call -> bool) (tr : list Call) : nat :=
  List.length (filter f tr).

(** An artifact as the page creates them: made from a prompt that has
    something other than white space, for a pair the selectors offer,
    its code the rendering of exactly its own three inputs, its id the
    decimal form of a clock reading. *)
Definition offered (language type : string) : Prop :=
  In language (map fst languages) /\ In type (map fst codeTypes).

Definition well_formed (a : GeneratedCode) : Prop :=
  blank (description a) = false /\
  offered (language a) (Page.type a) /\
  code a = generateMockCode (description a) (language a) (Page.type a) /\
  exists now : Z, id a = Number_toString now.

(** The idle/pending discipline: nothing waits while the flag is down,
    exactly one call waits while it is up. *)
Definition in_step (b : Browser) : Prop :=
  match waiting b with
  | [] => isGenerating (page b) = false
  | [_] => isGenerating (page b) = true
  | _ => False
  end.

(** What the page keeps true of its inputs, of the call that waits and
    of the history. *)
Definition sound (b : Browser) : Prop :=
  offered (selectedLanguage (page b)) (selectedType (page b)) /\
  Forall (fun c => blank (c_prompt c) = false /\
                   offered (c_language c) (c_type c)) (waiting b) /\
  Forall well_formed (generatedCodes (page b)).

(** The trace accounts for the history: one render and one success toast
    per artifact, one timer per artifact and per waiting call. *)
Definition accounted (b : Browser) : Prop :=
  count isRender (trace (page b)) = List.length (generatedCodes (page b)) /\
  count (isToastTitled "Code Generated") (trace (page b)) =
    List.length (generatedCodes (page b)) /\
  count isTimer (trace (page b)) =
    List.length (generatedCodes (page b)) + List.length (waiting b).

(** A saved file comes from an artifact of the history and carries the
    extension the table lists for its language. *)
Definition saved_from (history : list GeneratedCode) (d : Download) : Prop :=
  exists a extension,
    In a history /\
    In (language a, extension) extensions /\
    d = {| blob := code a;
           blob_type := "text/plain";
           download :=
             "generated-" ++ Page.type a ++ "-" ++ id a ++ "." ++ extension |}.

(** A catalog template is a fixed text, the argument, a fixed text. *)
Definition frames (f : string -> string) : Prop :=
  exists head tail : string, forall p, f p = head ++ p ++ tail.

(** All the pairs the two selectors can produce, language first. *)
Definition selectable : list (string * string) :=
  flat_map (fun l => map (fun t => (fst l, fst t)) codeTypes) languages.

End Session.

(** ** The toast hook *)

(** [useToast] of the hooks directory: [showToast] passes one text to
    [alert].  The model gives that text. *)

Module Hook.

Inductive ToastType : Type := success | error | info.

Definition typeName (t : ToastType) : string :=
  match t with
  | success => "success"
  | error => "error"
  | info => "info"
  end.

(** [interface ToastOptions] *)
Record ToastOptions : Type := mkToastOptions
  { message : string;
    type : option ToastType;
    duration : option Z }.

Definition showToast (options : ToastOptions) : string :=
  match type options with
  | Some t => "[" ++ typeName t ++ "] "
  | None => EmptyString
  end ++ message options.

End Hook.

(** ** The start-up script *)

(** [src/backend/start.sh].  The file names no interpreter, and its two
    tool checks are written [command -v tool &> /dev/null], which shells
    read in two ways.  bash and zsh send both output streams of the
    command to the file, so the test is whether the tool was found.  A
    POSIX sh such as dash ends the command at [&] and runs it in the
    background, then takes [> /dev/null] as a command of its own, which
    succeeds, so the test holds always.  The model takes the reading as
    a parameter.  The machine decides whether [command -v] finds
    [docker] and [docker-compose] and what [docker-compose ps] prints.
    The model gives what the script does, in order, and its exit status.
    Strings here are byte strings. *)

Module StartScript.
Import JS.

Inductive AmpGreater : Type :=
| RedirectsBoth
| BackgroundsCommand.

Record Machine : Type := mkMachine
  { docker : bool;
    docker_compose : bool;
    ps : string }.

(** [CommandV tool background]: [command -v tool], awaited with its
    output discarded, or started in the background with its output on
    the terminal. *)
Inductive Action : Type :=
| Echo (line : string)
| CommandV (tool : string) (background : bool)
| ComposeUp
| Sleep (seconds : Z)
| ComposePs.

Definition banner : list Action :=
  [ Echo "Starting Framework Hub Backend..." ].

Definition docker_missing : Action :=
  Echo "Docker is not installed. Please install Docker first.".

Definition docker_compose_missing : Action :=
  Echo "Docker Compose is not installed. Please install Docker Compose first.".

Definition bring_up : list Action :=
  [ Echo "Starting MongoDB and FastAPI services...";
    ComposeUp;
    Echo "Services started successfully!";
    Echo "MongoDB: http://localhost:27017";
    Echo "FastAPI: http://localhost:8000";
    Echo "API Documentation: http://localhost:8000/docs";
    Echo "Waiting for services to be ready...";
    Sleep 10;
    ComposePs ].

Definition report_running : list Action :=
  [ Echo "✅ All services are running successfully!";
    Echo EmptyString;
    Echo "🔗 Useful URLs:";
    Echo "   - API Health Check: http://localhost:8000/api/health";
    Echo "   - API Documentation: http://localhost:8000/docs";
    Echo "   - Interactive API: http://localhost:8000/redoc";
    Echo EmptyString;
    Echo "📊 Database Collections:";
    Echo "   - build_logs: Stores all pipeline execution logs";
    Echo "   - generated_code: Stores generated code (max 10 entries)" ].

Definition report_failed : list Action :=
  [ Echo "❌ Some services failed to start. Check logs with: docker-compose logs" ].

(** [grep -q "Up"] on the output of [docker-compose ps]: some line
    contains the two letters. *)
Definition looks_up (m : Machine) : bool := includes (ps m) "Up".

Definition script (reading : AmpGreater) (m : Machine) : list Action * Z :=
  match reading with
  | BackgroundsCommand =>
      ((banner ++ [ CommandV "docker" true; docker_missing ])%list, 1%Z)
  | RedirectsBoth =>
      if negb (docker m) then
        ((banner ++ [ CommandV "docker" false; docker_missing ])%list, 1%Z)
      else if negb (docker_compose m) then
        ((banner ++
          [ CommandV "docker" false;
            CommandV "docker-compose" false;
            docker_compose_missing ])%list, 1%Z)
      else if looks_up m then
        ((banner ++
          [ CommandV "docker" false; CommandV "docker-compose" false ] ++
          bring_up ++ report_running)%list, 0%Z)
      else
        ((banner ++
          [ CommandV "docker" false; CommandV "docker-compose" false ] ++
          bring_up ++ report_failed)%list, 0%Z)
  end.

Definition actions (reading : AmpGreater) (m : Machine) : list Action :=
  fst (script reading m).

Definition status (reading : AmpGreater) (m : Machine) : Z :=
  snd (script reading m).

Definition usesCompose (a : Action) : bool :=
  match a with
  | ComposeUp | ComposePs => true
  | _ => false
  end.

Definition echoes (line : string) (a : Action) : bool :=
  match a with
  | Echo l => l =? line
  | _ => false
  end.

End StartScript.

(** ** The renderer as written *)

(** [generateMockCode] once more, this time as the statements and
    expressions of its body, with an evaluator for them.  The evaluator
    gives a function body what the page gives it: its parameters and
    [const]s, the variables of the function it is nested in (the state
    of the component among them), the clock, and calls made for their
    effect.  With that, what the body reads and what it does are things
    to prove. *)

Module Syntax.
Import JS.

Inductive val : Type :=
| VString (s : string)
| VBoolean (b : bool)
| VNumber (n : Z)
| VUndefined.

Inductive expr : Type :=
| Lit (s : string)
| Ident (x : string)
| Cat (a b : expr)
| StrictEq (a b : expr)
| ToLowerCase (e : expr)
| DateNow.

Inductive stmt : Type :=
| Const (x : string) (e : expr)
| If (c : expr) (body : stmt)
| Return (e : expr)
| Seq (a b : stmt)
| Call (callee : string) (arg : expr).

(** What surrounds a call: the variables of the enclosing scopes and the
    reading of the clock. *)
Record World : Type := mkWorld
  { outer : string -> option val;
    clock : Z }.

Inductive outcome : Type :=
| Ok (v : val)
| Throw.

Definition Scope : Type := list (string * val).

Fixpoint lookup (locals : Scope) (x : string) : option val :=
  match locals with
  | [] => None
  | (y, v) :: locals' => if x =? y then Some v else lookup locals' x
  end.

(** An identifier names the innermost binding; one that nothing binds is
    a ReferenceError. *)
Definition resolve (w : World) (locals : Scope) (x : string) : outcome :=
  match lookup locals x with
  | Some v => Ok v
  | None =>
      match outer w x with
      | Some v => Ok v
      | None => Throw
      end
  end.

(** ToString, as a template literal applies it. *)
Definition toStr (v : val) : string :=
  match v with
  | VString s => s
  | VBoolean true => "true"
  | VBoolean false => "false"
  | VNumber n => Number_toString n
  | VUndefined => "undefined"
  end.

Definition strictEq (a b : val) : bool :=
  match a, b with
  | VString x, VString y => x =? y
  | VBoolean x, VBoolean y => Bool.eqb x y
  | VNumber x, VNumber y => Z.eqb x y
  | VUndefined, VUndefined => true
  | _, _ => false
  end.

Definition toBool (v : val) : bool :=
  match v with
  | VString s => truthy s
  | VBoolean b => b
  | VNumber n => negb (Z.eqb n 0)
  | VUndefined => false
  end.

Fixpoint eval (w : World) (locals : Scope) (e : expr) : outcome :=
  match e with
  | Lit s => Ok (VString s)
  | Ident x => resolve w locals x
  | Cat a b =>
      match eval w locals a, eval w locals b with
      | Ok x, Ok y => Ok (VString (toStr x ++ toStr y))
      | _, _ => Throw
      end
  | StrictEq a b =>
      match eval w locals a, eval w locals b with
      | Ok x, Ok y => Ok (VBoolean (strictEq x y))
      | _, _ => Throw
      end
  | ToLowerCase e =>
      match eval w locals e with
      | Ok (VString s) => Ok (VString (toLowerCase s))
      | _ => Throw
      end
  | DateNow => Ok (VNumber (clock w))
  end.

(** How a statement ends: control goes on with the scope it leaves, or a
    [return] was executed, or an exception was thrown. *)
Inductive completion : Type :=
| Normal (locals : Scope)
| Returned (v : val)
| Thrown.

(** A run gives the completion and the calls made for their effect, in
    order.  The [const]s of an [if] block end with the block. *)
Fixpoint exec (w : World) (locals : Scope) (s : stmt)
  : completion * list (string * val) :=
  match s with
  | Const x e =>
      match eval w locals e with
      | Ok v => (Normal ((x, v) :: locals), [])
      | Throw => (Thrown, [])
      end
  | If c body =>
      match eval w locals c with
      | Ok v =>
          if toBool v then
            match exec w locals body with
            | (Normal _, fx) => (Normal locals, fx)
            | other => other
            end
          else (Normal locals, [])
      | Throw => (Thrown, [])
      end
  | Return e =>
      match eval w locals e with
      | Ok v => (Returned v, [])
      | Throw => (Thrown, [])
      end
  | Seq a b =>
      match exec w locals a with
      | (Normal locals', fx) =>
          let (c, fx') := exec w locals' b in (c, (fx ++ fx')%list)
      | other => other
      end
  | Call callee arg =>
      match eval w locals arg with
      | Ok v => (Normal locals, [(callee, v)])
      | Throw => (Thrown, [])
      end
  end.

(** A call of a function with the given parameters and body. *)
Definition invoke (params : list string) (body : stmt) (args : list val)
    (w : World) : outcome * list (string * val) :=
  match exec w (combine params args) body with
  | (Normal _, fx) => (Ok VUndefined, fx)
  | (Returned v, fx) => (Ok v, fx)
  | (Thrown, fx) => (Throw, fx)
  end.

(** The template literals, part by part. *)
Module Literal.

Definition javascript_function : expr :=
  Cat (Lit ("// Generated JavaScript function based on: " ++ dq))
    (Cat (Ident "prompt")
    (Lit (dq ++ "
function processData(input) {
    try {
        // Validate input
        if (!input || typeof input !== 'object') {
            throw new Error('Invalid input provided');
        }
        
        // Process the data
        const result = {
            processed: true,
            timestamp: new Date().toISOString(),
            data: input
        };
        
        // Apply transformations
        if (input.items && Array.isArray(input.items)) {
            result.data.items = input.items.map(item => ({
                ...item,
                processed: true
            }));
        }
        
        return result;
    } catch (error) {
        console.error('Processing failed:', error);
        return { error: error.message };
    }
}

// Usage example
const sampleData = { items: [{ id: 1, name: 'test' }] };
const result = processData(sampleData);
console.log(result);"))).

Definition javascript_api : expr :=
  Cat (Lit ("// Generated Express.js API endpoint based on: " ++ dq))
    (Cat (Ident "prompt")
    (Lit (dq ++ "
const express = require('express');
const router = express.Router();

// Middleware for validation
const validateRequest = (req, res, next) => {
    const { body } = req;
    
    if (!body || Object.keys(body).length === 0) {
        return res.status(400).json({
            error: 'Request body is required'
        });
    }
    
    next();
};

// Main API endpoint
router.post('/api/process', validateRequest, async (req, res) => {
    try {
        const { data } = req.body;
        
        // Process the request
        const processedData = {
            id: Date.now(),
            originalData: data,
            processed: true,
            timestamp: new Date().toISOString()
        };
        
        // Simulate async processing
        await new Promise(resolve => setTimeout(resolve, 100));
        
        res.status(200).json({
            success: true,
            data: processedData
        });
        
    } catch (error) {
        console.error('API Error:', error);
        res.status(500).json({
            error: 'Internal server error',
            message: error.message
        });
    }
});

module.exports = router;"))).

Definition python_function : expr :=
  Cat (Lit ("# Generated Python function based on: " ++ dq))
    (Cat (Ident "prompt")
    (Lit (dq ++ "
from typing import Dict, Any, Optional
import json
from datetime import datetime

def process_data(input_data: Dict[str, Any]) -> Dict[str, Any]:
    " ++ dq ++ dq ++ dq ++ "
    Process input data and return structured result.
    
    Args:
        input_data: Dictionary containing data to process
        
    Returns:
        Dictionary with processed results
        
    Raises:
        ValueError: If input data is invalid
    " ++ dq ++ dq ++ dq ++ "
    try:
        # Validate input
        if not isinstance(input_data, dict):
            raise ValueError(" ++ dq ++ "Input must be a dictionary" ++ dq ++ ")
        
        # Process the data
        result = {
            " ++ dq ++ "processed" ++ dq ++ ": True,
            " ++ dq ++ "timestamp" ++ dq ++ ": datetime.now().isoformat(),
            " ++ dq ++ "data" ++ dq ++ ": input_data.copy()
        }
        
        # Apply transformations
        if " ++ dq ++ "items" ++ dq ++ " in input_data and isinstance(input_data[" ++ dq ++ "items" ++ dq ++ "], list):
            result[" ++ dq ++ "data" ++ dq ++ "][" ++ dq ++ "items" ++ dq ++ "] = [
                {**item, " ++ dq ++ "processed" ++ dq ++ ": True} 
                for item in input_data[" ++ dq ++ "items" ++ dq ++ "]
            ]
        
        return result
        
    except Exception as e:
        return {" ++ dq ++ "error" ++ dq ++ ": str(e)}

# Usage example
if __name__ == " ++ dq ++ "__main__" ++ dq ++ ":
    sample_data = {" ++ dq ++ "items" ++ dq ++ ": [{" ++ dq ++ "id" ++ dq ++ ": 1, " ++ dq ++ "name" ++ dq ++ ": " ++ dq ++ "test" ++ dq ++ "}]}
    result = process_data(sample_data)
    print(json.dumps(result, indent=2))"))).

Definition python_class : expr :=
  Cat (Lit ("# Generated Python class based on: " ++ dq))
    (Cat (Ident "prompt")
    (Lit (dq ++ "
from typing import List, Dict, Any, Optional
from datetime import datetime
import logging

class DataProcessor:
    " ++ dq ++ dq ++ dq ++ "
    A class for processing and managing data operations.
    " ++ dq ++ dq ++ dq ++ "
    
    def __init__(self, config: Optional[Dict[str, Any]] = None):
        " ++ dq ++ dq ++ dq ++ "
        Initialize the DataProcessor.
        
        Args:
            config: Optional configuration dictionary
        " ++ dq ++ dq ++ dq ++ "
        self.config = config or {}
        self.processed_items: List[Dict[str, Any]] = []
        self.logger = logging.getLogger(__name__)
        
    def add_item(self, item: Dict[str, Any]) -> bool:
        " ++ dq ++ dq ++ dq ++ "
        Add an item to be processed.
        
        Args:
            item: Dictionary containing item data
            
        Returns:
            True if item was added successfully
        " ++ dq ++ dq ++ dq ++ "
        try:
            validated_item = self._validate_item(item)
            self.processed_items.append(validated_item)
            self.logger.info(f" ++ dq ++ "Added item: {validated_item.get('id', 'unknown')}" ++ dq ++ ")
            return True
        except Exception as e:
            self.logger.error(f" ++ dq ++ "Failed to add item: {e}" ++ dq ++ ")
            return False
    
    def process_all(self) -> List[Dict[str, Any]]:
        " ++ dq ++ dq ++ dq ++ "
        Process all added items.
        
        Returns:
            List of processed items
        " ++ dq ++ dq ++ dq ++ "
        results = []
        for item in self.processed_items:
            processed_item = self._process_item(item)
            results.append(processed_item)
        
        return results
    
    def _validate_item(self, item: Dict[str, Any]) -> Dict[str, Any]:
        " ++ dq ++ dq ++ dq ++ "Validate and prepare item for processing." ++ dq ++ dq ++ dq ++ "
        if not isinstance(item, dict):
            raise ValueError(" ++ dq ++ "Item must be a dictionary" ++ dq ++ ")
        
        return {
            **item,
            " ++ dq ++ "added_at" ++ dq ++ ": datetime.now().isoformat(),
            " ++ dq ++ "status" ++ dq ++ ": " ++ dq ++ "pending" ++ dq ++ "
        }
    
    def _process_item(self, item: Dict[str, Any]) -> Dict[str, Any]:
        " ++ dq ++ dq ++ dq ++ "Process a single item." ++ dq ++ dq ++ dq ++ "
        return {
            **item,
            " ++ dq ++ "processed_at" ++ dq ++ ": datetime.now().isoformat(),
            " ++ dq ++ "status" ++ dq ++ ": " ++ dq ++ "completed" ++ dq ++ "
        }

# Usage example
if __name__ == " ++ dq ++ "__main__" ++ dq ++ ":
    processor = DataProcessor({" ++ dq ++ "debug" ++ dq ++ ": True})
    processor.add_item({" ++ dq ++ "id" ++ dq ++ ": 1, " ++ dq ++ "name" ++ dq ++ ": " ++ dq ++ "test item" ++ dq ++ "})
    results = processor.process_all()
    print(results)"))).

Definition java_class : expr :=
  Cat (Lit ("// Generated Java class based on: " ++ dq))
    (Cat (Ident "prompt")
    (Lit (dq ++ "
import java.time.LocalDateTime;
import java.time.format.DateTimeFormatter;
import java.util.*;
import java.util.logging.Logger;

public class DataProcessor {
    private static final Logger logger = Logger.getLogger(DataProcessor.class.getName());
    private final Map<String, Object> config;
    private final List<Map<String, Object>> processedItems;
    
    public DataProcessor() {
        this(new HashMap<>());
    }
    
    public DataProcessor(Map<String, Object> config) {
        this.config = config;
        this.processedItems = new ArrayList<>();
    }
    
    public boolean addItem(Map<String, Object> item) {
        try {
            Map<String, Object> validatedItem = validateItem(item);
            processedItems.add(validatedItem);
            logger.info(" ++ dq ++ "Added item: " ++ dq ++ " + validatedItem.getOrDefault(" ++ dq ++ "id" ++ dq ++ ", " ++ dq ++ "unknown" ++ dq ++ "));
            return true;
        } catch (Exception e) {
            logger.severe(" ++ dq ++ "Failed to add item: " ++ dq ++ " + e.getMessage());
            return false;
        }
    }
    
    public List<Map<String, Object>> processAll() {
        List<Map<String, Object>> results = new ArrayList<>();
        for (Map<String, Object> item : processedItems) {
            Map<String, Object> processedItem = processItem(item);
            results.add(processedItem);
        }
        return results;
    }
    
    private Map<String, Object> validateItem(Map<String, Object> item) {
        if (item == null) {
            throw new IllegalArgumentException(" ++ dq ++ "Item cannot be null" ++ dq ++ ");
        }
        
        Map<String, Object> validatedItem = new HashMap<>(item);
        validatedItem.put(" ++ dq ++ "addedAt" ++ dq ++ ", LocalDateTime.now().format(DateTimeFormatter.ISO_LOCAL_DATE_TIME));
        validatedItem.put(" ++ dq ++ "status" ++ dq ++ ", " ++ dq ++ "pending" ++ dq ++ ");
        
        return validatedItem;
    }
    
    private Map<String, Object> processItem(Map<String, Object> item) {
        Map<String, Object> processedItem = new HashMap<>(item);
        processedItem.put(" ++ dq ++ "processedAt" ++ dq ++ ", LocalDateTime.now().format(DateTimeFormatter.ISO_LOCAL_DATE_TIME));
        processedItem.put(" ++ dq ++ "status" ++ dq ++ ", " ++ dq ++ "completed" ++ dq ++ ");
        
        return processedItem;
    }
    
    // Usage example
    public static void main(String[] args) {
        DataProcessor processor = new DataProcessor();
        
        Map<String, Object> item = new HashMap<>();
        item.put(" ++ dq ++ "id" ++ dq ++ ", 1);
        item.put(" ++ dq ++ "name" ++ dq ++ ", " ++ dq ++ "test item" ++ dq ++ ");
        
        processor.addItem(item);
        List<Map<String, Object>> results = processor.processAll();
        
        System.out.println(results);
    }
}"))).

Definition fallback : expr :=
  Cat (Lit "// Generated ")
    (Cat (Ident "language")
    (Cat (Lit " ")
    (Cat (Ident "type")
    (Cat (Lit (" based on: " ++ dq))
    (Cat (Ident "prompt")
    (Cat (Lit (dq ++ "
// This is a placeholder implementation
// Please provide more specific requirements for better code generation

console.log(" ++ dq ++ "Generated code for: "))
    (Cat (Ident "prompt")
    (Lit (dq ++ ");"))))))))).

End Literal.

Definition generateMockCode_params : list string :=
  [ "prompt"; "language"; "type" ].

Definition generateMockCode_body : stmt :=
  Seq (Const "lowerPrompt" (ToLowerCase (Ident "prompt")))
 (Seq (If (StrictEq (Ident "language") (Lit "javascript"))
         (Seq (If (StrictEq (Ident "type") (Lit "function"))
                 (Return Literal.javascript_function))
              (If (StrictEq (Ident "type") (Lit "api"))
                 (Return Literal.javascript_api))))
 (Seq (If (StrictEq (Ident "language") (Lit "python"))
         (Seq (If (StrictEq (Ident "type") (Lit "function"))
                 (Return Literal.python_function))
              (If (StrictEq (Ident "type") (Lit "class"))
                 (Return Literal.python_class))))
 (Seq (If (StrictEq (Ident "language") (Lit "java"))
         (If (StrictEq (Ident "type") (Lit "class"))
            (Return Literal.java_class)))
      (Return Literal.fallback)))).

(** The scope of the body once [lowerPrompt] is bound. *)
Definition body_scope (prompt language type : string) : Scope :=
  [ ("lowerPrompt", VString (toLowerCase prompt));
    ("prompt", VString prompt);
    ("language", VString language);
    ("type", VString type) ].

(** Three bodies that are not the renderer's, for comparison: one puts
    the clock into its text, one reads a variable of the component, one
    calls a state setter before it returns. *)
Definition stamped_body : stmt :=
  Return (Cat (Lit "// at ") (Cat DateNow (Cat (Lit ": ") (Ident "prompt")))).

Definition peeking_body : stmt :=
  Return (Cat (Ident "selectedLanguage") (Cat (Lit ": ") (Ident "prompt"))).

Definition clearing_body : stmt :=
  Seq (Call "setPrompt" (Lit EmptyString)) (Return (Ident "prompt")).

End Syntax.

(** * Properties *)

(** ** Strings *)

Section StringFacts.
Import JS.

Lemma append_assoc (a b c : string) : (a ++ b) ++ c = a ++ b ++ c.
Proof.
  induction a as [|x a IH]; simpl; [reflexivity|].
  now rewrite IH.
Qed.

Lemma append_nonempty (a b : string) : a <> EmptyString -> a ++ b <> EmptyString.
Proof.
  destruct a as [|x a]; simpl; [congruence | discriminate].
Qed.

Lemma prefix_append (d s : string) : prefix d (d ++ s) = true.
Proof.
  induction d as [|x d IH]; simpl.
  - now destruct s.
  - destruct (ascii_dec x x) as [_|N]; [exact IH | now elim N].
Qed.

Lemma prefix_split (d s : string) :
  prefix d s = true -> exists b, s = d ++ b.
Proof.
  revert s; induction d as [|x d IH]; intros s H.
  - now exists s.
  - destruct s as [|y s]; simpl in H; [discriminate|].
    destruct (ascii_dec x y) as [->|_]; [|discriminate].
    destruct (IH _ H) as [b ->].
    now exists b.
Qed.

Lemma includes_prefix (s d : string) : prefix d s = true -> includes s d = true.
Proof.
  intros H. destruct s; cbn [includes]; rewrite H; reflexivity.
Qed.

Lemma includes_append (a d b : string) : includes (a ++ d ++ b) d = true.
Proof.
  induction a as [|x a IH].
  - apply includes_prefix. exact (prefix_append d b).
  - simpl. rewrite IH. apply orb_true_r.
Qed.

(** [includes] decides occurrence as a contiguous run. *)
Lemma includes_spec (s d : string) :
  includes s d = true <-> exists a b, s = a ++ d ++ b.
Proof.
  split.
  - induction s as [|x s IH]; cbn [includes]; intros H.
    + rewrite orb_false_r in H.
      destruct (prefix_split _ _ H) as [b E].
      now exists EmptyString, b.
    + apply orb_true_iff in H as [H|H].
      * destruct (prefix_split _ _ H) as [b E].
        now exists EmptyString, b.
      * destruct (IH H) as (a & b & ->).
        now exists (String x a), b.
  - intros (a & b & ->). apply includes_append.
Qed.

Lemma trimStart_blank (s : string) : blank s = true -> trimStart s = EmptyString.
Proof.
  induction s as [|c s IH]; simpl; [reflexivity|].
  destruct (isWhiteSpace c); simpl; [exact IH | discriminate].
Qed.

Lemma trimEnd_empty (s : string) : trimEnd s = EmptyString -> blank s = true.
Proof.
  induction s as [|c s IH]; simpl; [reflexivity|].
  destruct (trimEnd s); [|discriminate].
  destruct (isWhiteSpace c); [|discriminate].
  intros _. now rewrite IH.
Qed.

Lemma trimStart_empty (s : string) : blank (trimStart s) = true -> blank s = true.
Proof.
  induction s as [|c s IH]; simpl; [reflexivity|].
  destruct (isWhiteSpace c) eqn:E; simpl.
  - exact IH.
  - now rewrite E.
Qed.

(** The test [!prompt.trim()] succeeds exactly on the empty and the
    all-white-space strings. *)
Lemma trim_falsy_iff (s : string) :
  truthy (trim s) = false <-> blank s = true.
Proof.
  unfold trim; split.
  - intros H. apply trimStart_empty, trimEnd_empty.
    now destruct (trimEnd (trimStart s)).
  - intros H. now rewrite (trimStart_blank _ H).
Qed.


(** The primitives on small inputs. *)

Example trim_both_ends : trim "  sort a list   " = "sort a list".
Proof. reflexivity. Qed.

Example trim_line_breaks :
  trim (String "010" (String "009" (String "160" "x"))) = "x".
Proof. reflexivity. Qed.

Example trim_spaces : trim "   " = EmptyString /\ blank "   " = true.
Proof. split; reflexivity. Qed.

Example trim_keeps_inner : trim " a b " = "a b" /\ blank " a b " = false.
Proof. split; reflexivity. Qed.

Example Number_toString_now : Number_toString 1700000000123 = "1700000000123".
Proof. reflexivity. Qed.

Example Number_toString_negative : Number_toString (-42) = "-42".
Proof. reflexivity. Qed.

Example includes_inner : includes "say hello twice" "hello" = true.
Proof. reflexivity. Qed.

Example includes_not : includes "say hello twice" "help" = false.
Proof. reflexivity. Qed.

End StringFacts.

(** ** The renderer *)

Section Renderer.
Import JS Page Spec.

Ltac embeds_literal :=
  match goal with
  | |- embeds (fun p => ?a ++ dq ++ p ++ ?b) =>
      exists (a ++ dq), (fun _ => b); split;
      [ apply append_nonempty; discriminate
      | intros p; symmetry; apply append_assoc ]
  end.

Lemma javascript_function_embeds : embeds Template.javascript_function.
Proof. unfold Template.javascript_function. embeds_literal. Qed.

Lemma javascript_api_embeds : embeds Template.javascript_api.
Proof. unfold Template.javascript_api. embeds_literal. Qed.

Lemma python_function_embeds : embeds Template.python_function.
Proof. unfold Template.python_function. embeds_literal. Qed.

Lemma python_class_embeds : embeds Template.python_class.
Proof. unfold Template.python_class. embeds_literal. Qed.

Lemma java_class_embeds : embeds Template.java_class.
Proof. unfold Template.java_class. embeds_literal. Qed.

Lemma fallback_embeds (language type : string) :
  embeds (fun p => Template.fallback p language type).
Proof.
  unfold Template.fallback.
  match goal with
  | |- embeds (fun p => ?a ++ language ++ ?b ++ type ++ ?c ++ dq ++ p ++ @?rest p) =>
      exists (a ++ language ++ b ++ type ++ c ++ dq), rest
  end.
  split; [discriminate|].
  intros p. cbv beta. rewrite !append_assoc. reflexivity.
Qed.

(** [generateMockCode] reads the catalog and falls back when the pair is
    not in it. *)
Lemma generateMockCode_lookup (prompt language type : string) :
  generateMockCode prompt language type =
  match lookup language type with
  | Some f => f prompt
  | None => Template.fallback prompt language type
  end.
Proof.
  unfold generateMockCode, lookup, catalog, lookup_in, pair_eqb, when, next.
  cbn [fst snd].
  destruct (language =? "javascript"), (language =? "python"),
    (language =? "java"), (type =? "function"), (type =? "api"),
    (type =? "class"); reflexivity.
Qed.

Lemma lookup_embeds (language type : string) (f : string -> string) :
  lookup language type = Some f -> embeds f.
Proof.
  unfold lookup, catalog, lookup_in.
  repeat match goal with
         | |- context [if ?c then _ else _] => destruct c
         end;
    intros [=]; subst f;
    auto using javascript_function_embeds, javascript_api_embeds,
      python_function_embeds, python_class_embeds, java_class_embeds.
Qed.

Lemma generateMockCode_embeds (language type : string) :
  embeds (fun p => generateMockCode p language type).
Proof.
  destruct (lookup language type) as [f|] eqn:E.
  - destruct (lookup_embeds _ _ _ E) as (h & t & Hh & Hf).
    exists h, t; split; [exact Hh|].
    intros p. now rewrite generateMockCode_lookup, E.
  - destruct (fallback_embeds language type) as (h & t & Hh & Hf).
    exists h, t; split; [exact Hh|].
    intros p. now rewrite generateMockCode_lookup, E.
Qed.

Lemma pair_eqb_eq (a b : string * string) : pair_eqb a b = true <-> a = b.
Proof.
  destruct a as [a1 a2], b as [b1 b2]; unfold pair_eqb; cbn [fst snd].
  rewrite andb_true_iff, !String.eqb_eq.
  split; [intros [-> ->]; reflexivity | intros [= -> ->]; split; reflexivity].
Qed.

Lemma lookup_in_None tbl (k : string * string) :
  lookup_in tbl k = None <-> ~ In k (map fst tbl).
Proof.
  induction tbl as [|[k' f] tbl IH]; cbn [lookup_in map fst In].
  - tauto.
  - destruct (pair_eqb k k') eqn:E.
    + apply pair_eqb_eq in E. split; [discriminate | intros H; elim H; auto].
    + rewrite IH. split.
      * intros H [Hk|H']; [|tauto].
        rewrite (proj2 (pair_eqb_eq k k') (eq_sym Hk)) in E. discriminate E.
      * tauto.
Qed.

Lemma lookup_in_Some tbl (k : string * string) (f : string -> string) :
  lookup_in tbl k = Some f -> In (k, f) tbl.
Proof.
  induction tbl as [|[k' g] tbl IH]; cbn [lookup_in In]; [discriminate|].
  destruct (pair_eqb k k') eqn:E.
  - apply pair_eqb_eq in E. intros [= ->]. left; congruence.
  - auto.
Qed.

(** No catalog template prints what the fallback would print for its pair:
    the texts differ in their first line. *)
Lemma catalog_not_fallback (language type : string) (f : string -> string) :
  In ((language, type), f) catalog ->
  forall prompt, f prompt <> Template.fallback prompt language type.
Proof.
  unfold catalog; cbn [In].
  intros H prompt E.
  repeat destruct H as [H|H]; try contradiction;
    injection H as <- <- <-;
    apply (f_equal (fun s => (String.get 0 s, String.get 13 s))) in E;
    lazy in E; discriminate E.
Qed.

(** The first line of a catalog rendering and of a fallback rendering. *)

Example render_javascript_function :
  substring 0 55 (generateMockCode "sum" "javascript" "function") =
  "// Generated JavaScript function based on: " ++ dq ++ "sum" ++ dq ++ "
functi".
Proof. reflexivity. Qed.

Example render_rust_test :
  generateMockCode "sum" "rust" "test" =
  "// Generated rust test based on: " ++ dq ++ "sum" ++ dq ++ "
// This is a placeholder implementation
// Please provide more specific requirements for better code generation

console.log(" ++ dq ++ "Generated code for: sum" ++ dq ++ ");".
Proof. reflexivity. Qed.

End Renderer.

Section RendererClaims.
Import JS Page Spec.

(** C4.  For every language, code type and description, also for pairs
    that are not in the catalog and for strings outside the two
    enumerations, [generateMockCode] yields a string with at least one
    character; it is a total function, so there is no input on which it
    raises.  A pair without a catalog entry gets the fallback template,
    a pair with one gets that entry. *)
Theorem render_nonempty (prompt language type : string) :
  (exists c rest, generateMockCode prompt language type = String c rest) /\
  (exists c rest, Template.fallback prompt language type = String c rest) /\
  generateMockCode prompt language type =
    match lookup language type with
    | Some f => f prompt
    | None => Template.fallback prompt language type
    end.
Proof.
  assert (N : forall f, embeds f -> exists c rest, f prompt = String c rest).
  { intros f (h & t & Hh & Hf). rewrite Hf.
    destruct h as [|c h]; [congruence|].
    now exists c, (h ++ prompt ++ t prompt). }
  split; [|split].
  - exact (N _ (generateMockCode_embeds language type)).
  - exact (N _ (fallback_embeds language type)).
  - apply generateMockCode_lookup.
Qed.

(** C5.  For every non-empty description and every pair of language and
    code type, the rendered text contains the description verbatim as a
    contiguous substring; this holds for each of the catalog templates and
    for the fallback template. *)
Theorem render_contains_description (prompt language type : string) :
  prompt <> EmptyString ->
  includes (generateMockCode prompt language type) prompt = true /\
  includes (Template.fallback prompt language type) prompt = true /\
  forall k f, In (k, f) catalog -> includes (f prompt) prompt = true.
Proof.
  intros _.
  assert (I : forall f, embeds f -> includes (f prompt) prompt = true).
  { intros f (h & t & _ & Hf). rewrite Hf. apply includes_append. }
  split; [|split].
  - exact (I _ (generateMockCode_embeds language type)).
  - exact (I _ (fallback_embeds language type)).
  - intros k f H. apply I.
    unfold catalog in H; cbn [In] in H.
    repeat destruct H as [H|H]; try contradiction; injection H as _ <-;
      auto using javascript_function_embeds, javascript_api_embeds,
        python_function_embeds, python_class_embeds, java_class_embeds.
Qed.

Lemma render_contains_description_witness :
  "sum two numbers" <> EmptyString /\
  includes (generateMockCode "sum two numbers" "python" "function")
    "sum two numbers" = true.
Proof.
  split.
  - discriminate.
  - apply (render_contains_description "sum two numbers" "python" "function").
    discriminate.
Defined.

(** C9.  The catalog has exactly the five pairs (javascript, function),
    (javascript, api), (python, function), (python, class) and
    (java, class): the renderer returns the fallback text for a pair
    exactly when the pair is none of these, and so it does for
    (typescript, function) and (javascript, class). *)
Theorem catalog_exactly_five :
  map fst catalog =
    [ ("javascript", "function"); ("javascript", "api");
      ("python", "function"); ("python", "class"); ("java", "class") ] /\
  (forall prompt language type,
     generateMockCode prompt language type =
       Template.fallback prompt language type
     <-> ~ In (language, type) (map fst catalog)) /\
  (forall prompt,
     generateMockCode prompt "typescript" "function" =
       Template.fallback prompt "typescript" "function" /\
     generateMockCode prompt "javascript" "class" =
       Template.fallback prompt "javascript" "class").
Proof.
  split; [reflexivity|split].
  - intros prompt language type.
    rewrite generateMockCode_lookup.
    destruct (lookup language type) as [f|] eqn:E.
    + split.
      * intros H. exfalso.
        exact (catalog_not_fallback _ _ _ (lookup_in_Some _ _ _ E) prompt H).
      * intros H. exfalso.
        apply (proj2 (lookup_in_None catalog (language, type))) in H.
        unfold lookup in E. congruence.
    + split; [|reflexivity].
      intros _. now apply lookup_in_None.
  - intros prompt. split; reflexivity.
Qed.

End RendererClaims.

(** ** The request handler and the history *)

Section Controller.
Import JS Page Spec.

Lemma generateCode_begin_rejects (s : State) :
  blank (prompt s) = true ->
  generateCode_begin s = (toast promptRequired s, None).
Proof.
  intros B. unfold generateCode_begin.
  now rewrite (proj2 (trim_falsy_iff _) B).
Qed.

Lemma generateCode_begin_accepts (s : State) :
  blank (prompt s) = false ->
  generateCode_begin s =
    (record (CallSetTimeout 2000) (setIsGenerating true s),
     Some (mkCaptured (prompt s) (selectedLanguage s) (selectedType s))).
Proof.
  intros B. unfold generateCode_begin.
  destruct (truthy (trim (prompt s))) eqn:T; [reflexivity|].
  apply trim_falsy_iff in T. congruence.
Qed.

(** Whatever happened while the request was waiting, its completion puts
    the new artifact in front of the history it finds. *)
Lemma generateCode_resume_history (c : Captured) (now stamp : Z) (s : State) :
  generatedCodes (generateCode_resume c now stamp s) =
  newCode c now stamp :: generatedCodes s.
Proof. reflexivity. Qed.

Lemma generate_rejected (r : Request) (s : State) :
  accepted r = false ->
  generate r s = toast promptRequired (entered r s).
Proof.
  unfold accepted, generate, generateCode; intros A.
  apply negb_false_iff in A.
  now rewrite generateCode_begin_rejects.
Qed.

Lemma generate_accepted (r : Request) (s : State) :
  accepted r = true ->
  generate r s =
  generateCode_resume (captured r) (r_now r) (r_stamp r)
    (record (CallSetTimeout 2000) (setIsGenerating true (entered r s))).
Proof.
  unfold accepted, generate, generateCode; intros A.
  apply negb_true_iff in A.
  now rewrite generateCode_begin_accepts.
Qed.

Lemma generate_history (r : Request) (s : State) :
  generatedCodes (generate r s) =
  if accepted r then artifact r :: generatedCodes s else generatedCodes s.
Proof.
  destruct (accepted r) eqn:A.
  - now rewrite generate_accepted.
  - now rewrite generate_rejected.
Qed.

(** The history after a run of requests: the artifacts of the accepted
    ones, latest first, in front of what was there. *)
Lemma generate_all_history (rs : list Request) (s : State) :
  generatedCodes (generate_all rs s) =
  (rev (map artifact (filter accepted rs)) ++ generatedCodes s)%list.
Proof.
  revert s; induction rs as [|r rs IH]; intros s; [reflexivity|].
  change (generate_all (r :: rs) s) with (generate_all rs (generate r s)).
  rewrite IH, generate_history. cbn [filter].
  destruct (accepted r); [|reflexivity].
  cbn [map rev]. now rewrite <- app_assoc.
Qed.

Lemma filter_all {A} (f : A -> bool) (l : list A) :
  forallb f l = true -> filter f l = l.
Proof.
  induction l as [|x l IH]; cbn [forallb filter]; [reflexivity|].
  intros H. apply andb_true_iff in H as [-> H]. now rewrite IH.
Qed.

End Controller.

Section ControllerClaims.
Import JS Page Spec.

(** C3.  For every language and code type, a request whose description is
    empty or consists of white space only is stopped at the validation
    gate: the handler has no continuation, so nothing is rendered and no
    timer is set; the history is unchanged; exactly one call is added to
    the trace, the toast asking for a prompt; and the rest of the state
    is as the request found it: the prompt still holds the description
    and the pending flag has its old value. *)
Theorem validation_gate (r : Request) (s : State) :
  blank (r_description r) = true ->
  generateCode_begin (entered r s) = (toast promptRequired (entered r s), None) /\
  generate r s = toast promptRequired (entered r s) /\
  generatedCodes (generate r s) = generatedCodes s /\
  trace (generate r s) = (trace s ++ [CallToast promptRequired])%list /\
  prompt (generate r s) = r_description r /\
  selectedLanguage (generate r s) = r_language r /\
  selectedType (generate r s) = r_type r /\
  isGenerating (generate r s) = isGenerating s.
Proof.
  intros B.
  assert (A : accepted r = false) by (unfold accepted; now rewrite B).
  split; [now apply generateCode_begin_rejects|].
  rewrite (generate_rejected _ _ A).
  repeat split.
Qed.

Lemma validation_gate_witness :
  blank "   " = true /\
  generate (mkRequest "rust" "algorithm" "   " 1700000000000 1700000000000) initial =
  toast promptRequired (setPrompt "   "
    (setSelectedType "algorithm" (setSelectedLanguage "rust" initial))).
Proof.
  split.
  - reflexivity.
  - apply (validation_gate
             (mkRequest "rust" "algorithm" "   " 1700000000000 1700000000000)
             initial).
    reflexivity.
Defined.

(** C6.  The history is kept latest first: an accepted request puts its
    artifact at the head, so after request A and then request B the
    history reads B, A and then what was there before, in the order it
    is stored.  This also holds when B was already waiting while A
    completed: the completion of B prepends to the history it finds. *)
Theorem history_latest_first (a b : Request) (s : State) :
  accepted a = true -> accepted b = true ->
  hd_error (generatedCodes (generate a s)) = Some (artifact a) /\
  generatedCodes (generate b (generate a s)) =
    artifact b :: artifact a :: generatedCodes s /\
  (forall s', generatedCodes s' = generatedCodes (generate a s) ->
     generatedCodes
       (generateCode_resume (captured b) (r_now b) (r_stamp b) s') =
     artifact b :: artifact a :: generatedCodes s).
Proof.
  intros A B. rewrite !generate_history, A, B.
  split; [reflexivity|]. split; [reflexivity|].
  intros s' E. now rewrite generateCode_resume_history, E.
Qed.

Lemma history_latest_first_witness :
  accepted (mkRequest "go" "script" "copy files" 1700000000000 1700000000000) = true /\
  accepted (mkRequest "python" "class" "a stack" 1700000005000 1700000005001) = true /\
  generatedCodes
    (generate (mkRequest "python" "class" "a stack" 1700000005000 1700000005001)
       (generate (mkRequest "go" "script" "copy files" 1700000000000 1700000000000)
          initial)) =
  [ artifact (mkRequest "python" "class" "a stack" 1700000005000 1700000005001);
    artifact (mkRequest "go" "script" "copy files" 1700000000000 1700000000000) ].
Proof.
  split; [reflexivity|].
  split; [reflexivity|].
  apply (history_latest_first
           (mkRequest "go" "script" "copy files" 1700000000000 1700000000000)
           (mkRequest "python" "class" "a stack" 1700000005000 1700000005001)
           initial); reflexivity.
Defined.

(** C10.  An accepted request makes the history longer by exactly one and
    touches nothing that was in it: behind the new head the history is
    the old one, artifact for artifact and in the same order. *)
Theorem generate_append_only (r : Request) (s : State) :
  accepted r = true ->
  List.length (generatedCodes (generate r s)) = S (List.length (generatedCodes s)) /\
  generatedCodes (generate r s) = artifact r :: generatedCodes s /\
  tl (generatedCodes (generate r s)) = generatedCodes s /\
  (forall i, nth_error (generatedCodes (generate r s)) (S i) =
             nth_error (generatedCodes s) i).
Proof.
  intros A. rewrite generate_history, A. repeat split.
Qed.

Lemma generate_append_only_witness :
  accepted (mkRequest "java" "class" "a queue" 1700000009000 1700000009000) = true /\
  tl (generatedCodes
        (generate (mkRequest "java" "class" "a queue" 1700000009000 1700000009000)
           (generate (mkRequest "go" "script" "copy files" 1700000000000 1700000000000)
              initial))) =
  generatedCodes
    (generate (mkRequest "go" "script" "copy files" 1700000000000 1700000000000)
       initial).
Proof.
  split.
  - reflexivity.
  - apply (generate_append_only
             (mkRequest "java" "class" "a queue" 1700000009000 1700000009000)).
    reflexivity.
Defined.

End ControllerClaims.

Section HistoryClaims.
Import JS Page Spec.



(** C1, as the page has it.  The history has no cap: a run of accepted
    requests adds one artifact per request and evicts none, so the
    history after the run is the artifacts of the run, latest first, in
    front of everything it held before. *)
Theorem history_keeps_everything (rs : list Request) (s : State) :
  forallb accepted rs = true ->
  generatedCodes (generate_all rs s) =
    (rev (map artifact rs) ++ generatedCodes s)%list /\
  List.length (generatedCodes (generate_all rs s)) =
    List.length rs + List.length (generatedCodes s).
Proof.
  intros A.
  rewrite generate_all_history, (filter_all _ _ A).
  split; [reflexivity|].
  now rewrite length_app, length_rev, length_map.
Qed.


Lemma history_keeps_everything_witness :
  forallb accepted
    [ mkRequest "go" "script" "copy files" 1700000000000 1700000000000;
      mkRequest "go" "script" "copy files" 1700000004000 1700000004000 ] = true /\
  List.length
    (generatedCodes
       (generate_all
          [ mkRequest "go" "script" "copy files" 1700000000000 1700000000000;
            mkRequest "go" "script" "copy files" 1700000004000 1700000004000 ]
          initial)) = 2.
Proof.
  split.
  - reflexivity.
  - apply (history_keeps_everything
             [ mkRequest "go" "script" "copy files" 1700000000000 1700000000000;
               mkRequest "go" "script" "copy files" 1700000004000 1700000004000 ]
             initial).
    reflexivity.
Defined.

(** No cap holds, whatever its value: one request more than the cap
    exceeds it. *)
Lemma no_cap (N : nat) : ~ retains_at_most N.
Proof.
  intros H.
  pose (r := mkRequest "go" "script" "copy files" 0 0).
  specialize (H (repeat r (S N))).
  assert (A : forallb accepted (repeat r (S N)) = true).
  { apply forallb_forall. intros x Hx. now rewrite (repeat_spec _ _ _ Hx). }
  specialize (H A).
  rewrite (proj2 (history_keeps_everything _ initial A)), repeat_length in H.
  cbn [generatedCodes initial List.length] in H. lia.
Qed.

(** Against C1 as stated, with the cap of ten entries that the start-up
    script prints for the stored collection: eleven accepted requests
    leave eleven artifacts in the history, the earliest among them. *)
Lemma bounded_history_counterexample :
  let request k :=
    mkRequest "python" "function" "sum two numbers"
      (1700000000000 + 3000 * Z.of_nat k) (1700000000000 + 3000 * Z.of_nat k) in
  let rs := map request (seq 0 11) in
  forallb accepted rs = true /\
  List.length rs = 11 /\
  List.length (generatedCodes (generate_all rs initial)) = 11 /\
  nth_error (generatedCodes (generate_all rs initial)) 10 = Some (artifact (request 0)) /\
  ~ bounded_history 10.
Proof.
  intros request rs.
  assert (A : forallb accepted rs = true) by reflexivity.
  destruct (history_keeps_everything rs initial A) as [E L].
  split; [exact A|].
  split; [reflexivity|].
  split; [rewrite L; reflexivity|].
  split; [rewrite E; reflexivity|].
  intros [B _]. specialize (B rs A). rewrite L in B.
  cbn in B. lia.
Qed.




End HistoryClaims.

(** ** Export *)

Section ExportClaims.
Import JS Page Spec.

Lemma getFileExtension_python : getFileExtension "python" = Str "py".
Proof. reflexivity. Qed.

(** A language of the table resolves to its entry. *)
Lemma getFileExtension_listed (language extension : string) :
  In (language, extension) extensions ->
  getFileExtension language = Str extension.
Proof.
  unfold extensions; cbn [In]; intros H.
  repeat destruct H as [H|H]; try contradiction;
    injection H as <- <-; reflexivity.
Qed.

Lemma own_None (props : list (string * string)) (key : string) :
  own props key = None <-> ~ In key (map fst props).
Proof.
  induction props as [|[k v] props IH]; cbn [own map fst In]; [tauto|].
  destruct (key =? k) eqn:E.
  - apply String.eqb_eq in E. split; [discriminate | intros H; elim H; auto].
  - apply String.eqb_neq in E. rewrite IH. intuition congruence.
Qed.

(** A language that is neither in the table nor a property name of
    [Object.prototype] resolves to [txt]. *)
Lemma getFileExtension_unlisted (language : string) :
  ~ In language (map fst extensions) ->
  ~ In language objectPrototype ->
  getFileExtension language = Str "txt".
Proof.
  intros T O. unfold getFileExtension, get.
  rewrite (proj2 (own_None _ _) T).
  destruct (existsb (String.eqb language) objectPrototype) eqn:E; [|reflexivity].
  apply existsb_exists in E as (k & Hk & E).
  apply String.eqb_eq in E. subst k. contradiction.
Qed.

(** A property name of [Object.prototype] resolves to what it names there. *)
Lemma getFileExtension_inherited (language : string) :
  In language objectPrototype ->
  getFileExtension language = Inherited language.
Proof.
  unfold objectPrototype; cbn [In]; intros H.
  repeat destruct H as [H|H]; try contradiction; subst language; reflexivity.
Qed.

(** The name under which an artifact is saved. *)
Lemma downloadCode_name (host : string -> string) (code : GeneratedCode) :
  download (downloadCode host code) =
  "generated-" ++ type code ++ "-" ++ id code ++ "." ++
  toString host (getFileExtension (language code)).
Proof. reflexivity. Qed.

Lemma downloadCode_name_listed (host : string -> string) (code : GeneratedCode)
    (extension : string) :
  In (language code, extension) extensions ->
  download (downloadCode host code) =
  "generated-" ++ type code ++ "-" ++ id code ++ "." ++ extension.
Proof.
  intros H. rewrite downloadCode_name, (getFileExtension_listed _ _ H).
  reflexivity.
Qed.



End ExportClaims.

(** ** The validation test, character by character *)

Section GateFacts.
Import JS Page Spec.

Lemma blank_false_iff (s : string) :
  blank s = false <->
  exists c, In c (list_ascii_of_string s) /\ isWhiteSpace c = false.
Proof.
  induction s as [|x s IH]; cbn [blank list_ascii_of_string In].
  - split; [discriminate | intros (c & [] & _)].
  - rewrite andb_false_iff, IH. split.
    + intros [H|(c & Hc & Hw)].
      * exists x. auto.
      * exists c. auto.
    + intros (c & [<-|Hc] & Hw); [now left | right; now exists c].
Qed.

(** The handler goes on to its wait exactly for a prompt that has a
    code unit which is not white space; the call it suspends holds the
    prompt as typed, untrimmed, with the two selections. *)
Theorem gate_accepts_iff (s : State) :
  ((exists c, In c (list_ascii_of_string (prompt s)) /\ isWhiteSpace c = false) <->
   snd (generateCode_begin s) =
     Some (mkCaptured (prompt s) (selectedLanguage s) (selectedType s))) /\
  ((forall c, In c (list_ascii_of_string (prompt s)) -> isWhiteSpace c = true) <->
   snd (generateCode_begin s) = None).
Proof.
  destruct (blank (prompt s)) eqn:B.
  - rewrite (generateCode_begin_rejects _ B). cbn [snd]. split.
    + split; [|discriminate].
      intros H. apply blank_false_iff in H. congruence.
    + split; [reflexivity|].
      intros _ c Hc. destruct (isWhiteSpace c) eqn:W; [reflexivity|].
      assert (F : blank (prompt s) = false) by (apply blank_false_iff; eauto).
      congruence.
  - rewrite (generateCode_begin_accepts _ B). cbn [snd]. split.
    + split; [reflexivity|]. intros _. now apply blank_false_iff.
    + split; [|discriminate].
      intros H. apply blank_false_iff in B as (c & Hc & W).
      rewrite (H _ Hc) in W. discriminate.
Qed.

End GateFacts.

(** ** The session *)

Section SessionFacts.
Import JS Page Spec Session.

Lemma run_app (host : string -> string) (es1 es2 : list Event) (b : Browser) :
  run host (es1 ++ es2) b = run host es2 (run host es1 b).
Proof. apply fold_left_app. Qed.

(** A property that every event preserves holds after every run. *)
Lemma run_invariant (host : string -> string) (P : Browser -> Prop) :
  (forall e b, P b -> P (step host e b)) ->
  forall es b, P b -> P (run host es b).
Proof.
  intros Hstep es. induction es as [|e es IH]; intros b Hb; [exact Hb|].
  apply IH, Hstep, Hb.
Qed.

(** What one event does to the history: nothing, or one artifact in front. *)
Lemma step_history (host : string -> string) (e : Event) (b : Browser) :
  generatedCodes (page (step host e b)) = generatedCodes (page b) \/
  exists c now stamp,
    e = TimerFires now stamp /\ hd_error (waiting b) = Some c /\
    generatedCodes (page (step host e b)) =
      newCode c now stamp :: generatedCodes (page b).
Proof.
  destruct e as [v|k|k|k| |now stamp|k granted|k]; cbn [step].
  - now left.
  - destruct (nth_error quickPrompts k); now left.
  - destruct (nth_error languages k) as [[v l]|]; now left.
  - destruct (nth_error codeTypes k) as [[v l]|]; now left.
  - destruct (generateDisabled (page b)); [now left|].
    unfold generateCode_begin.
    destruct (negb (truthy (trim (prompt (page b))))); now left.
  - destruct (waiting b) as [|c rest]; [now left|].
    right. now exists c, now, stamp.
  - destruct (nth_error (generatedCodes (page b)) k); now left.
  - destruct (nth_error (generatedCodes (page b)) k); now left.
Qed.

Lemma in_step_preserved (host : string -> string) (e : Event) (b : Browser) :
  in_step b -> in_step (step host e b).
Proof.
  unfold in_step.
  destruct e as [v|k|k|k| |now stamp|k granted|k]; cbn [step]; intros H.
  - exact H.
  - destruct (nth_error quickPrompts k); exact H.
  - destruct (nth_error languages k) as [[v l]|]; exact H.
  - destruct (nth_error codeTypes k) as [[v l]|]; exact H.
  - unfold generateDisabled.
    destruct (isGenerating (page b)) eqn:G; [rewrite G; exact H|].
    destruct (waiting b) as [|c [|c' rest]] eqn:W;
      [|discriminate H|contradiction].
    unfold generateCode_begin.
    destruct (negb (truthy (trim (prompt (page b))))); cbn; [exact G | reflexivity].
  - destruct (waiting b) as [|c [|c' rest]] eqn:W;
      [rewrite W; exact H | reflexivity | contradiction].
  - destruct (nth_error (generatedCodes (page b)) k); exact H.
  - destruct (nth_error (generatedCodes (page b)) k); exact H.
Qed.

Lemma offered_language (k : nat) (v l : string) :
  nth_error languages k = Some (v, l) -> In v (map fst languages).
Proof.
  intros H. apply nth_error_In in H. exact (in_map fst _ _ H).
Qed.

Lemma offered_type (k : nat) (v l : string) :
  nth_error codeTypes k = Some (v, l) -> In v (map fst codeTypes).
Proof.
  intros H. apply nth_error_In in H. exact (in_map fst _ _ H).
Qed.

Lemma sound_preserved (host : string -> string) (e : Event) (b : Browser) :
  sound b -> sound (step host e b).
Proof.
  destruct b as [p w cl sv]. unfold sound, offered. cbn [page waiting].
  intros ((Hl & Ht) & Hw & Hh).
  destruct e as [v|k|k|k| |now stamp|k granted|k]; cbn [step].
  - repeat split; assumption.
  - destruct (nth_error quickPrompts k); repeat split; assumption.
  - destruct (nth_error languages k) as [[v l]|] eqn:E;
      repeat split; try assumption.
    exact (offered_language _ _ _ E).
  - destruct (nth_error codeTypes k) as [[v l]|] eqn:E;
      repeat split; try assumption.
    exact (offered_type _ _ _ E).
  - cbn [page waiting].
    destruct (generateDisabled p); [repeat split; assumption|].
    destruct (blank (prompt p)) eqn:B.
    + rewrite (generateCode_begin_rejects _ B). cbn.
      rewrite app_nil_r. repeat split; assumption.
    + rewrite (generateCode_begin_accepts _ B). cbn.
      repeat split; try assumption.
      apply Forall_app; split; [exact Hw|].
      constructor; [|constructor]. cbn. repeat split; assumption.
  - cbn [page waiting].
    destruct w as [|c rest]; [repeat split; assumption|].
    inversion Hw as [|? ? (Hb & Hcl & Hct) Hrest]; subst. cbn.
    repeat split; try assumption.
    constructor; [|exact Hh].
    unfold well_formed, offered; cbn.
    repeat split; try assumption. now exists now.
  - cbn [page].
    destruct (nth_error (generatedCodes p) k);
      repeat split; assumption.
  - cbn [page].
    destruct (nth_error (generatedCodes p) k);
      repeat split; assumption.
Qed.

Lemma sound_start : sound start.
Proof.
  unfold sound, offered; cbn.
  repeat split; auto 10.
Qed.

Lemma sound_reachable (host : string -> string) (es : list Event) :
  sound (run host es start).
Proof.
  apply run_invariant; [apply sound_preserved | apply sound_start].
Qed.

Lemma offered_listed (language : string) :
  In language (map fst languages) ->
  exists extension, In (language, extension) extensions.
Proof.
  unfold languages, extensions; cbn [map fst In].
  intros H.
  repeat destruct H as [H|H]; try contradiction; subst language;
    eexists; auto 10.
Qed.

Lemma count_snoc (f : Call -> bool) (tr : list Call) (c : Call) :
  count f (tr ++ [c]) = count f tr + (if f c then 1 else 0).
Proof.
  unfold count. rewrite filter_app, length_app. cbn [filter].
  now destruct (f c).
Qed.

Lemma accounted_preserved (host : string -> string) (e : Event) (b : Browser) :
  accounted b -> accounted (step host e b).
Proof.
  destruct b as [p w cl sv]. unfold accounted. cbn [page waiting].
  intros (Hr & Hs & Ht).
  destruct e as [v|k|k|k| |now stamp|k granted|k]; cbn [step].
  - repeat split; assumption.
  - destruct (nth_error quickPrompts k); repeat split; assumption.
  - destruct (nth_error languages k) as [[v l]|]; repeat split; assumption.
  - destruct (nth_error codeTypes k) as [[v l]|]; repeat split; assumption.
  - cbn [page waiting].
    destruct (generateDisabled p); [repeat split; assumption|].
    destruct (blank (prompt p)) eqn:B.
    + rewrite (generateCode_begin_rejects _ B).
      cbn [page waiting toast record trace generatedCodes].
      rewrite !count_snoc, app_nil_r. cbn. lia.
    + rewrite (generateCode_begin_accepts _ B).
      cbn [page waiting record setIsGenerating trace generatedCodes].
      rewrite !count_snoc, length_app. cbn. lia.
  - cbn [page waiting].
    destruct w as [|c rest]; [repeat split; assumption|].
    cbn [page waiting generateCode_resume toast record setIsGenerating
         setPrompt setGeneratedCodes trace generatedCodes].
    rewrite !count_snoc. cbn in *. lia.
  - cbn [page].
    destruct (nth_error (generatedCodes p) k); [|repeat split; assumption].
    cbn [copyCode page waiting toast record trace generatedCodes].
    rewrite !count_snoc. cbn. lia.
  - cbn [page].
    destruct (nth_error (generatedCodes p) k); repeat split; assumption.
Qed.

Lemma steady_reachable (host : string -> string) (es : list Event) :
  in_step (run host es start) /\ accounted (run host es start).
Proof.
  apply (run_invariant host (fun b => in_step b /\ accounted b)).
  - intros e b [I A]. split.
    + now apply in_step_preserved.
    + now apply accounted_preserved.
  - split; [reflexivity|]. repeat split.
Qed.

End SessionFacts.

Section SessionProperties.
Import JS Page Spec Session.

(** While a request is pending the Generate button is disabled, so at
    most one call of [generateCode] waits at any time, and one waits
    exactly while the pending flag is up. *)
Theorem at_most_one_pending (host : string -> string) (es : list Event) :
  List.length (waiting (run host es start)) <= 1 /\
  (isGenerating (page (run host es start)) = true <->
   waiting (run host es start) <> []) /\
  (waiting (run host es start) <> [] ->
   step host ClickGenerate (run host es start) = run host es start).
Proof.
  destruct (steady_reachable host es) as [I _].
  unfold in_step in I.
  destruct (run host es start) as [p w cl sv]; cbn [page waiting] in *.
  destruct w as [|c [|c' rest]]; [| |contradiction].
  - split; [cbn; lia|]. split; [|congruence].
    rewrite I. split; [discriminate | congruence].
  - split; [cbn; lia|]. split.
    + rewrite I. split; [discriminate | reflexivity].
    + intros _. cbn [step page]. unfold generateDisabled. now rewrite I.
Qed.

(** No event removes or reorders what is in the history, from whatever
    state: after a run the old history is still there behind at most one
    new artifact per timer event. *)
Theorem history_only_grows (host : string -> string) (es : list Event)
    (b : Browser) :
  exists new,
    generatedCodes (page (run host es b)) =
      (new ++ generatedCodes (page b))%list /\
    List.length new <= List.length (filter isTimerFires es).
Proof.
  revert b. induction es as [|e es IH]; intros b.
  - exists []. split; [reflexivity | cbn; lia].
  - destruct (IH (step host e b)) as (new & E & L).
    change (run host (e :: es) b) with (run host es (step host e b)).
    destruct (step_history host e b) as [S|(c & now & stamp & -> & _ & S)].
    + exists new. rewrite E, S. split; [reflexivity|].
      cbn [filter]. destruct (isTimerFires e); cbn; lia.
    + exists (new ++ [newCode c now stamp])%list.
      rewrite E, S, <- app_assoc. split; [reflexivity|].
      rewrite length_app. cbn. lia.
Qed.

(** Whatever the user does, every artifact of the history is for a
    language and a code type that the selectors offer, and so for a
    language whose extension the table lists. *)
Theorem history_artifacts_offered (host : string -> string) (es : list Event) :
  Forall
    (fun a =>
       In (language a) (map fst languages) /\
       In (Page.type a) (map fst codeTypes) /\
       exists extension,
         In (language a, extension) extensions /\
         getFileExtension (language a) = Str extension)
    (generatedCodes (page (run host es start))).
Proof.
  destruct (sound_reachable host es) as (_ & _ & H).
  eapply Forall_impl; [|exact H].
  intros a (_ & (Hl & Ht) & _).
  split; [exact Hl|]. split; [exact Ht|].
  destruct (offered_listed _ Hl) as (e & He).
  exists e. split; [exact He|]. now apply getFileExtension_listed.
Qed.

(** Whatever the user does, every artifact of the history was made from
    a description with something other than white space in it, and its
    code is the rendering of its own description, language and code
    type: not empty, and containing the description. *)
Theorem history_artifacts_rendered (host : string -> string) (es : list Event) :
  Forall
    (fun a =>
       blank (description a) = false /\
       code a = generateMockCode (description a) (language a) (Page.type a) /\
       code a <> EmptyString /\
       includes (code a) (description a) = true /\
       exists now, id a = Number_toString now)
    (generatedCodes (page (run host es start))).
Proof.
  destruct (sound_reachable host es) as (_ & _ & H).
  eapply Forall_impl; [|exact H].
  intros a (Hb & _ & Hc & Hi).
  destruct (generateMockCode_embeds (language a) (Page.type a))
    as (h & t & Hh & Hf).
  repeat split; try assumption.
  - rewrite Hc, Hf. now apply append_nonempty.
  - rewrite Hc, Hf. apply includes_append.
Qed.

(** The trace accounts for the history after every run: one render and
    one success toast per artifact, and one timer per artifact and per
    call still waiting. *)
Theorem trace_accounts_for_history (host : string -> string) (es : list Event) :
  count isRender (trace (page (run host es start))) =
    List.length (generatedCodes (page (run host es start))) /\
  count (isToastTitled "Code Generated") (trace (page (run host es start))) =
    List.length (generatedCodes (page (run host es start))) /\
  count isTimer (trace (page (run host es start))) =
    List.length (generatedCodes (page (run host es start))) +
    List.length (waiting (run host es start)).
Proof.
  exact (proj2 (steady_reachable host es)).
Qed.

End SessionProperties.

Section SessionFlow.
Import JS Page Spec Session.

Lemma quickPrompts_not_blank (q : string) :
  In q quickPrompts -> blank q = false.
Proof.
  assert (H : forallb (fun q => negb (blank q)) quickPrompts = true)
    by reflexivity.
  intros Hq. rewrite forallb_forall in H.
  now apply negb_true_iff, H.
Qed.

(** While a call waits, an event other than its timer leaves the call,
    the flag and the history alone. *)
Lemma pending_kept (host : string -> string) (e : Event) (b : Browser) :
  isTimerFires e = false ->
  isGenerating (page b) = true ->
  isGenerating (page (step host e b)) = true /\
  waiting (step host e b) = waiting b /\
  generatedCodes (page (step host e b)) = generatedCodes (page b).
Proof.
  destruct b as [p w cl sv]. cbn [page waiting]. intros T G.
  destruct e as [v|k|k|k| |now stamp|k granted|k]; cbn [step];
    try discriminate T.
  - repeat split; assumption.
  - destruct (nth_error quickPrompts k); repeat split; assumption.
  - destruct (nth_error languages k) as [[v l]|]; repeat split; assumption.
  - destruct (nth_error codeTypes k) as [[v l]|]; repeat split; assumption.
  - cbn [page]. unfold generateDisabled. rewrite G. repeat split; assumption.
  - cbn [page]. destruct (nth_error (generatedCodes p) k);
      repeat split; assumption.
  - cbn [page]. destruct (nth_error (generatedCodes p) k);
      repeat split; assumption.
Qed.

Lemma pending_kept_run (host : string -> string) (es : list Event) (b : Browser) :
  forallb (fun e => negb (isTimerFires e)) es = true ->
  isGenerating (page b) = true ->
  isGenerating (page (run host es b)) = true /\
  waiting (run host es b) = waiting b /\
  generatedCodes (page (run host es b)) = generatedCodes (page b).
Proof.
  revert b. induction es as [|e es IH]; intros b F G; [repeat split; assumption|].
  cbn [forallb] in F. apply andb_true_iff in F as [T F].
  apply negb_true_iff in T.
  destruct (pending_kept host e b T G) as (G' & W' & H').
  destruct (IH (step host e b) F G') as (G2 & W2 & H2).
  change (run host (e :: es) b) with (run host es (step host e b)).
  repeat split; congruence.
Qed.

(** A request is rendered with the prompt and the selections as they
    were when the button was clicked.  What the user types, selects,
    copies or saves while it waits does not reach the artifact, and the
    prompt is cleared on completion whatever it then holds. *)
Theorem inputs_fixed_at_click (host : string -> string) (b : Browser)
    (es : list Event) (now stamp : Z) :
  isGenerating (page b) = false ->
  waiting b = [] ->
  blank (prompt (page b)) = false ->
  forallb (fun e => negb (isTimerFires e)) es = true ->
  generatedCodes (page (run host (ClickGenerate :: es ++ [TimerFires now stamp]) b)) =
    newCode
      (mkCaptured (prompt (page b)) (selectedLanguage (page b))
         (selectedType (page b))) now stamp
    :: generatedCodes (page b) /\
  prompt (page (run host (ClickGenerate :: es ++ [TimerFires now stamp]) b)) =
    EmptyString /\
  isGenerating (page (run host (ClickGenerate :: es ++ [TimerFires now stamp]) b)) =
    false /\
  waiting (run host (ClickGenerate :: es ++ [TimerFires now stamp]) b) = [].
Proof.
  intros G W B F.
  change (run host (ClickGenerate :: es ++ [TimerFires now stamp]) b)
    with (run host (es ++ [TimerFires now stamp]) (step host ClickGenerate b)).
  rewrite run_app.
  set (b1 := step host ClickGenerate b).
  assert (E1 : isGenerating (page b1) = true /\
               waiting b1 =
                 [mkCaptured (prompt (page b)) (selectedLanguage (page b))
                    (selectedType (page b))] /\
               generatedCodes (page b1) = generatedCodes (page b)).
  { subst b1. cbn [step]. unfold generateDisabled. rewrite G.
    rewrite (generateCode_begin_accepts _ B), W. repeat split. }
  destruct E1 as (G1 & W1 & H1).
  destruct (pending_kept_run host es b1 F G1) as (G2 & W2 & H2).
  set (b2 := run host es b1) in *.
  change (run host [TimerFires now stamp] b2)
    with (step host (TimerFires now stamp) b2).
  cbn [step]. rewrite W2, W1.
  cbn [page waiting]. rewrite generateCode_resume_history, H2, H1.
  repeat split.
Qed.

Lemma inputs_fixed_at_click_witness :
  generatedCodes
    (page
       (run (fun k => k)
          (ClickGenerate ::
           [ChangePrompt "something else"; ChooseLanguage 1; ClickGenerate;
            ClickCopy 0 true] ++ [TimerFires 1700000002000 1700000002001])
          (onPage (setPrompt "sum two numbers") start))) =
  [ newCode (mkCaptured "sum two numbers" "javascript" "function")
      1700000002000 1700000002001 ].
Proof.
  apply (inputs_fixed_at_click (fun k => k)
           (onPage (setPrompt "sum two numbers") start)
           [ChangePrompt "something else"; ChooseLanguage 1; ClickGenerate;
            ClickCopy 0 true]
           1700000002000 1700000002001); reflexivity.
Defined.

(** Every quick prompt passes the validation test: clicking one and then
    Generate on an idle page always starts a request (the timer is set,
    no toast asks for a prompt). *)
Theorem quick_prompt_starts_request (host : string -> string) (k : nat)
    (q : string) (b : Browser) :
  nth_error quickPrompts k = Some q ->
  isGenerating (page b) = false ->
  waiting (run host [ClickQuickPrompt k; ClickGenerate] b) =
    (waiting b ++
     [mkCaptured q (selectedLanguage (page b)) (selectedType (page b))])%list /\
  trace (page (run host [ClickQuickPrompt k; ClickGenerate] b)) =
    (trace (page b) ++ [CallSetTimeout 2000])%list /\
  isGenerating (page (run host [ClickQuickPrompt k; ClickGenerate] b)) = true.
Proof.
  intros Q G.
  assert (B : blank q = false)
    by (apply quickPrompts_not_blank; eapply nth_error_In; exact Q).
  cbn [run fold_left step]. rewrite Q.
  unfold generateDisabled.
  cbn [onPage page waiting setPrompt isGenerating]. rewrite G.
  rewrite generateCode_begin_accepts; [|exact B].
  repeat split.
Qed.

Lemma quick_prompt_starts_request_witness :
  nth_error quickPrompts 6 = Some "Create a caching mechanism" /\
  waiting (run (fun k => k) [ClickQuickPrompt 6; ClickGenerate] start) =
  [mkCaptured "Create a caching mechanism" "javascript" "function"].
Proof.
  split.
  - reflexivity.
  - apply (quick_prompt_starts_request (fun k => k) 6
             "Create a caching mechanism" start); reflexivity.
Defined.

(** Driving the page event by event agrees with handling a request in
    one go: choosing a language and a code type, typing a description,
    clicking Generate on an idle page and letting the timer fire leaves
    the page in the state that [generate] computes for that request,
    whether the description is accepted or not. *)
Theorem session_agrees_with_generate (host : string -> string)
    (kl kt : nat) (l ll t tl d : string) (now stamp : Z) (b : Browser) :
  nth_error languages kl = Some (l, ll) ->
  nth_error codeTypes kt = Some (t, tl) ->
  isGenerating (page b) = false ->
  waiting b = [] ->
  run host
    [ChooseLanguage kl; ChooseType kt; ChangePrompt d; ClickGenerate;
     TimerFires now stamp] b =
  {| page := generate (mkRequest l t d now stamp) (page b);
     waiting := [];
     clipboard := clipboard b;
     saved := saved b |}.
Proof.
  intros L T G W. destruct b as [p w cl sv]. cbn [page waiting] in *. subst w.
  cbn [run fold_left step]. rewrite L, T.
  cbn [onPage page waiting clipboard saved].
  unfold generateDisabled. cbn [setPrompt setSelectedType setSelectedLanguage isGenerating].
  rewrite G.
  unfold generate, generateCode, entered.
  cbn [r_language r_type r_description r_now r_stamp].
  cbn [setPrompt setSelectedType setSelectedLanguage].
  match goal with
  | |- context [generateCode_begin ?s] => destruct (generateCode_begin s) as [s' [c|]]
  end; reflexivity.
Qed.

Lemma session_agrees_with_generate_witness :
  nth_error languages 1 = Some ("python", "Python") /\
  nth_error codeTypes 1 = Some ("class", "Class") /\
  page
    (run (fun k => k)
       [ChooseLanguage 1; ChooseType 1; ChangePrompt "a stack"; ClickGenerate;
        TimerFires 1700000002000 1700000002001] start) =
  generate (mkRequest "python" "class" "a stack" 1700000002000 1700000002001)
    initial.
Proof.
  split; [reflexivity|]. split; [reflexivity|].
  rewrite (session_agrees_with_generate (fun k => k) 1 1
             "python" "Python" "class" "Class" "a stack"
             1700000002000 1700000002001 start);
    reflexivity.
Defined.

End SessionFlow.

Section ExportProperties.
Import JS Page Spec Session.

Lemma saved_from_mono (h h' : list GeneratedCode) (d : Download) :
  (forall a, In a h -> In a h') -> saved_from h d -> saved_from h' d.
Proof.
  intros M (a & e & Ha & He & Hd). exists a, e. auto.
Qed.

Lemma saved_preserved (host : string -> string) (e : Event) (b : Browser) :
  sound b ->
  Forall (saved_from (generatedCodes (page b))) (saved b) ->
  Forall (saved_from (generatedCodes (page (step host e b))))
    (saved (step host e b)).
Proof.
  intros (_ & _ & Hh) S.
  assert (M : Forall (saved_from (generatedCodes (page (step host e b))))
                (saved b)).
  { eapply Forall_impl; [|exact S].
    intros d. apply saved_from_mono. intros a Ha.
    destruct (step_history host e b) as [->|(c & n & t & _ & _ & ->)];
      [exact Ha | now right]. }
  destruct b as [p w cl sv]. cbn [page saved] in *.
  destruct e as [v|k|k|k| |now stamp|k granted|k]; cbn [step] in *.
  - exact M.
  - destruct (nth_error quickPrompts k); exact M.
  - destruct (nth_error languages k) as [[v l]|]; exact M.
  - destruct (nth_error codeTypes k) as [[v l]|]; exact M.
  - cbn [page] in *. destruct (generateDisabled p); [exact M|].
    destruct (generateCode_begin p) as [s' r]. exact M.
  - cbn [waiting] in *. destruct w as [|c rest]; exact M.
  - cbn [page] in *. destruct (nth_error (generatedCodes p) k); exact M.
  - cbn [page] in *.
    destruct (nth_error (generatedCodes p) k) as [a|] eqn:E; [|exact M].
    cbn [page saved] in *.
    apply Forall_app; split; [exact M|].
    constructor; [|constructor].
    apply nth_error_In in E.
    rewrite Forall_forall in Hh.
    destruct (Hh _ E) as (_ & (Hl & _) & _).
    destruct (offered_listed _ Hl) as (x & Hx).
    exists a, x. split; [exact E|]. split; [exact Hx|].
    unfold downloadCode. now rewrite (getFileExtension_listed _ _ Hx).
Qed.

(** Every file the page hands over for saving comes from an artifact of
    the history and is named generated-<type>-<id>.<extension> with the
    extension the table lists for the artifact's language: through the
    page, the [txt] fallback and the inherited keys are never reached,
    and the host's text for built-ins never shows. *)
Theorem saved_files_have_listed_extension (host : string -> string)
    (es : list Event) :
  Forall
    (fun d =>
       exists a extension,
         In a (generatedCodes (page (run host es start))) /\
         In (language a, extension) extensions /\
         d = {| blob := code a;
                blob_type := "text/plain";
                download :=
                  "generated-" ++ Page.type a ++ "-" ++ id a ++ "." ++ extension |})
    (saved (run host es start)).
Proof.
  assert (H : sound (run host es start) /\
              Forall (saved_from (generatedCodes (page (run host es start))))
                (saved (run host es start))).
  { apply (run_invariant host
             (fun b => sound b /\
                       Forall (saved_from (generatedCodes (page b))) (saved b))).
    - intros e b [S F]. split.
      + now apply sound_preserved.
      + now apply saved_preserved.
    - split; [apply sound_start | constructor]. }
  exact (proj2 H).
Qed.

Lemma step_same_generation (host : string -> string) (e : Event)
    (b1 b2 : Browser) :
  isExport e = false ->
  same_generation b1 b2 ->
  same_generation (step host e b1) (step host e b2).
Proof.
  destruct b1 as [p1 w1 c1 s1], b2 as [p2 w2 c2 s2].
  unfold same_generation. cbn [page waiting].
  intros X (Hp & Hl & Ht & Hg & Hh & Hw).
  destruct e as [v|k|k|k| |now stamp|k granted|k]; cbn [step];
    try discriminate X.
  - repeat split; assumption.
  - destruct (nth_error quickPrompts k); repeat split; assumption.
  - destruct (nth_error languages k) as [[v l]|]; repeat split; assumption.
  - destruct (nth_error codeTypes k) as [[v l]|]; repeat split; assumption.
  - cbn [page waiting]. unfold generateDisabled. rewrite Hg.
    destruct (isGenerating p2) eqn:G2; [repeat split; cbn; congruence|].
    unfold generateCode_begin. rewrite Hp.
    destruct (negb (truthy (trim (prompt p2)))); cbn;
      repeat split; congruence.
  - cbn [waiting page]. rewrite Hw.
    destruct w2 as [|c rest]; [repeat split; assumption|].
    cbn. repeat split; congruence.
Qed.

Lemma export_same_generation (host : string -> string) (e : Event)
    (b : Browser) :
  isExport e = true -> same_generation (step host e b) b.
Proof.
  destruct b as [p w c s]. unfold same_generation.
  destruct e as [v|k|k|k| |now stamp|k granted|k]; try discriminate;
    intros _; cbn [step page];
    destruct (nth_error (generatedCodes p) k); repeat split.
Qed.

Lemma same_generation_trans (b1 b2 b3 : Browser) :
  same_generation b1 b2 -> same_generation b2 b3 -> same_generation b1 b3.
Proof.
  unfold same_generation. intuition congruence.
Qed.

(** Copying and saving never interfere with generation: a run and the
    same run with its copy and download clicks left out end with the
    same prompt, selections, pending flag, waiting call and history. *)
Theorem exports_do_not_affect_generation (host : string -> string)
    (es : list Event) (b : Browser) :
  same_generation
    (run host es b)
    (run host (filter (fun e => negb (isExport e)) es) b).
Proof.
  assert (G : forall b1 b2, same_generation b1 b2 ->
                same_generation (run host es b1)
                  (run host (filter (fun e => negb (isExport e)) es) b2)).
  { induction es as [|e es IH]; intros b1 b2 R; [exact R|].
    cbn [filter]. destruct (isExport e) eqn:X; cbn [negb].
    - change (run host (e :: es) b1) with (run host es (step host e b1)).
      apply IH. eapply same_generation_trans; [|exact R].
      now apply export_same_generation.
    - change (run host (e :: es) b1) with (run host es (step host e b1)).
      change (run host (e :: filter (fun e => negb (isExport e)) es) b2)
        with (run host (filter (fun e => negb (isExport e)) es) (step host e b2)).
      apply IH. now apply step_same_generation. }
  apply G. unfold same_generation. repeat split.
Qed.

Lemma append_cancel_l (a x y : string) : a ++ x = a ++ y -> x = y.
Proof.
  induction a as [|c a IH]; cbn; [auto|].
  intros [= H]. auto.
Qed.

Lemma length_append (a b : string) :
  String.length (a ++ b) = String.length a + String.length b.
Proof.
  induction a as [|c a IH]; cbn; [reflexivity|]. now rewrite IH.
Qed.

Lemma append_cancel_r (a x y : string) : x ++ a = y ++ a -> x = y.
Proof.
  revert y. induction x as [|c x IH]; intros [|d y] H; cbn in H.
  - reflexivity.
  - apply (f_equal String.length) in H. cbn in H.
    rewrite length_append in H. lia.
  - apply (f_equal String.length) in H. cbn in H.
    rewrite length_append in H. lia.
  - injection H as -> H. f_equal. now apply IH.
Qed.

(** Two artifacts of the same language and code type are saved under
    different names as soon as their ids differ. *)
Theorem download_names_differ (host : string -> string) (a1 a2 : GeneratedCode) :
  language a2 = language a1 ->
  Page.type a2 = Page.type a1 ->
  id a1 <> id a2 ->
  download (downloadCode host a1) <> download (downloadCode host a2).
Proof.
  intros L T N E. apply N.
  rewrite !downloadCode_name, L, T in E.
  apply append_cancel_l, append_cancel_l, append_cancel_l in E.
  exact (append_cancel_r _ _ _ E).
Qed.

Lemma download_names_differ_witness :
  id (artifact (mkRequest "go" "script" "copy files" 1700000000000 1700000000000)) <>
  id (artifact (mkRequest "go" "script" "copy files" 1700000002000 1700000002000)) /\
  download
    (downloadCode (fun k => k)
       (artifact (mkRequest "go" "script" "copy files" 1700000000000 1700000000000))) <>
  download
    (downloadCode (fun k => k)
       (artifact (mkRequest "go" "script" "copy files" 1700000002000 1700000002000))).
Proof.
  split.
  - discriminate.
  - apply (download_names_differ (fun k => k)); [reflexivity | reflexivity |].
    discriminate.
Defined.

(** The [txt] fallback applies exactly to the languages that are neither
    a key of the table nor a property name of [Object.prototype]. *)
Theorem txt_fallback_iff (language : string) :
  getFileExtension language = Str "txt" <->
  ~ In language (map fst extensions) /\ ~ In language objectPrototype.
Proof.
  split.
  - intros E. split; intros H.
    + apply in_map_iff in H as ([l e] & <- & H). cbn [fst] in E.
      rewrite (getFileExtension_listed _ _ H) in E.
      unfold extensions in H; cbn [In] in H.
      repeat destruct H as [H|H]; try contradiction;
        injection H as <- <-; discriminate E.
    + rewrite (getFileExtension_inherited _ H) in E. discriminate E.
  - intros [T O]. now apply getFileExtension_unlisted.
Qed.

End ExportProperties.

Section CatalogCoverage.
Import JS Page Spec Session.

Lemma dedicated_iff_lookup (prompt language type : string) :
  negb (generateMockCode prompt language type =?
        Template.fallback prompt language type) =
  match lookup language type with
  | Some _ => true
  | None => false
  end.
Proof.
  rewrite generateMockCode_lookup.
  destruct (lookup language type) as [f|] eqn:E.
  - apply negb_true_iff, String.eqb_neq.
    exact (catalog_not_fallback _ _ _ (lookup_in_Some _ _ _ E) prompt).
  - apply negb_false_iff, String.eqb_refl.
Qed.

(** Of the 64 combinations that the two selectors offer, the five pairs
    of the catalog, all of which can be selected, are the only ones
    rendered from a template of their own; the other 59 get the
    fallback text, whatever the description. *)
Theorem selectable_templates (prompt : string) :
  List.length selectable = 64 /\
  filter
    (fun p => negb (generateMockCode prompt (fst p) (snd p) =?
                    Template.fallback prompt (fst p) (snd p)))
    selectable = map fst catalog /\
  List.length
    (filter
       (fun p => generateMockCode prompt (fst p) (snd p) =?
                 Template.fallback prompt (fst p) (snd p))
       selectable) = 59.
Proof.
  split; [reflexivity|]. split.
  - rewrite (filter_ext _
               (fun p => match lookup (fst p) (snd p) with
                         | Some _ => true
                         | None => false
                         end)).
    + reflexivity.
    + intros [l t]. apply dedicated_iff_lookup.
  - rewrite (filter_ext _
               (fun p => match lookup (fst p) (snd p) with
                         | Some _ => false
                         | None => true
                         end)).
    + reflexivity.
    + intros [l t]. cbn [fst snd].
      rewrite <- (negb_involutive (_ =? _)), dedicated_iff_lookup.
      now destruct (lookup l t).
Qed.

End CatalogCoverage.

Section Notifications.
Import JS Page Spec Session.

Lemma generate_trace (r : Request) (s : State) :
  trace (generate r s) =
  if accepted r then
    (trace s ++
     [ CallSetTimeout 2000;
       CallGenerateMockCode (r_description r) (r_language r) (r_type r);
       CallToast (codeGenerated (r_language r) (r_type r)) ])%list
  else (trace s ++ [CallToast promptRequired])%list.
Proof.
  destruct (accepted r) eqn:A.
  - rewrite (generate_accepted _ _ A). cbn.
    now rewrite <- !app_assoc.
  - now rewrite (generate_rejected _ _ A).
Qed.

Lemma count_app (f : Call -> bool) (a b : list Call) :
  count f (a ++ b) = count f a + count f b.
Proof.
  unfold count. now rewrite filter_app, length_app.
Qed.

(** Every request ends in exactly one toast: the success toast when it is
    accepted, the toast asking for a prompt when it is not.  After a run
    of requests the trace has gained one toast per request, split
    accordingly. *)
Theorem one_toast_per_request (rs : list Request) (s : State) :
  count isToast (trace (generate_all rs s)) =
    count isToast (trace s) + List.length rs /\
  count (isToastTitled "Code Generated") (trace (generate_all rs s)) =
    count (isToastTitled "Code Generated") (trace s) +
    List.length (filter accepted rs) /\
  count (isToastTitled "Prompt Required") (trace (generate_all rs s)) =
    count (isToastTitled "Prompt Required") (trace s) +
    List.length (filter (fun r => negb (accepted r)) rs).
Proof.
  revert s. induction rs as [|r rs IH]; intros s.
  - cbn. repeat split; lia.
  - change (generate_all (r :: rs) s) with (generate_all rs (generate r s)).
    destruct (IH (generate r s)) as (H1 & H2 & H3).
    rewrite H1, H2, H3, generate_trace. cbn [filter List.length].
    destruct (accepted r); rewrite !count_app; cbn; repeat split; lia.
Qed.

End Notifications.

(** ** The toast hook *)

Section HookProperties.
Import Hook.

(** Among calls that give a type, the text passed to [alert] tells type
    and message apart: two such calls show the same text only if they
    agree on both (the duration plays no part). *)
Theorem showToast_typed_injective (o1 o2 : ToastOptions) (t1 t2 : ToastType) :
  type o1 = Some t1 -> type o2 = Some t2 ->
  showToast o1 = showToast o2 ->
  t1 = t2 /\ message o1 = message o2.
Proof.
  unfold showToast. intros -> -> E.
  destruct t1, t2; cbn in E;
    try discriminate E;
    (split; [reflexivity|]);
    injection E; auto.
Qed.

Lemma showToast_typed_injective_witness :
  showToast (mkToastOptions "saved" (Some success) None) =
  showToast (mkToastOptions "saved" (Some success) (Some 3000%Z)) /\
  success = success /\ "saved" = "saved".
Proof.
  split.
  - reflexivity.
  - apply (showToast_typed_injective
             (mkToastOptions "saved" (Some success) None)
             (mkToastOptions "saved" (Some success) (Some 3000%Z)));
      reflexivity.
Defined.

End HookProperties.

(** ** The start-up script *)

Section ScriptProperties.
Import JS StartScript.

(** Under a shell that reads [&>] as a redirection of both streams
    (bash, zsh), the exit status tells only whether the two tools are
    installed: it is 1 when [docker] or [docker-compose] is missing, and
    then neither [docker-compose up] nor [docker-compose ps] was run; it
    is 0 otherwise, also when the script ends by reporting that services
    failed to start, and the line saying the services started was
    printed then too.  Under a shell that reads [&>] as [&] followed by
    [>] (a POSIX sh such as dash), the script always prints that Docker
    is not installed and exits with status 1, on every machine. *)
Theorem script_status (m : Machine) :
  script BackgroundsCommand m =
    ((banner ++ [ CommandV "docker" true; docker_missing ])%list, 1%Z) /\
  status RedirectsBoth m = (if docker m && docker_compose m then 0 else 1)%Z /\
  (if docker m && docker_compose m
   then existsb (echoes "Services started successfully!")
          (actions RedirectsBoth m) = true /\
        List.length (filter usesCompose (actions RedirectsBoth m)) = 2
   else existsb usesCompose (actions RedirectsBoth m) = false) /\
  (looks_up m = false ->
   docker m = true -> docker_compose m = true ->
   script RedirectsBoth m =
     ((banner ++
       [ CommandV "docker" false; CommandV "docker-compose" false ] ++
       bring_up ++ report_failed)%list, 0%Z)).
Proof.
  split; [reflexivity|].
  unfold status, actions, script.
  destruct (docker m), (docker_compose m), (looks_up m);
    cbn; repeat split; try reflexivity; discriminate.
Qed.

(** Under a shell that reads [&>] as a redirection of both streams
    (bash, zsh) and with both tools installed, one occurrence of the
    letters Up anywhere in the output of [docker-compose ps] makes the
    script report that all services are running, whatever else the
    output says. *)
Theorem one_up_is_enough (before after : string) :
  script RedirectsBoth (mkMachine true true (before ++ "Up" ++ after)) =
  ((banner ++
    [ CommandV "docker" false; CommandV "docker-compose" false ] ++
    bring_up ++ report_running)%list, 0%Z).
Proof.
  unfold script, looks_up. cbn [docker docker_compose ps negb].
  now rewrite includes_append.
Qed.

End ScriptProperties.

Section RenderingRoundTrip.
Import JS Page Spec Session.

Ltac frames_literal :=
  match goal with
  | |- frames (fun p => ?a ++ dq ++ p ++ ?b) =>
      exists (a ++ dq), b; intros p; symmetry; apply append_assoc
  end.

Lemma catalog_frames (k : string * string) (f : string -> string) :
  In (k, f) catalog -> frames f.
Proof.
  unfold catalog; cbn [In]. intros H.
  repeat destruct H as [H|H]; try contradiction; injection H as _ <-.
  - unfold Template.javascript_function. frames_literal.
  - unfold Template.javascript_api. frames_literal.
  - unfold Template.python_function. frames_literal.
  - unfold Template.python_class. frames_literal.
  - unfold Template.java_class. frames_literal.
Qed.

Lemma equal_length_prefix (x y u v : string) :
  String.length x = String.length y -> x ++ u = y ++ v -> x = y.
Proof.
  revert y. induction x as [|c x IH]; intros [|d y] L E; cbn in *;
    try discriminate L.
  - reflexivity.
  - injection E as -> E. injection L as L. f_equal. eauto.
Qed.

Lemma fallback_injective (language type p1 p2 : string) :
  Template.fallback p1 language type = Template.fallback p2 language type ->
  p1 = p2.
Proof.
  unfold Template.fallback. intros E.
  do 6 apply append_cancel_l in E.
  assert (L : String.length p1 = String.length p2).
  { apply (f_equal String.length) in E.
    rewrite !length_append in E. cbn in E. lia. }
  exact (equal_length_prefix _ _ _ _ L E).
Qed.

(** The description can be read back from the code: for a given language
    and code type, two descriptions that render to the same text are the
    same description. *)
Theorem render_injective_in_description (language type p1 p2 : string) :
  generateMockCode p1 language type = generateMockCode p2 language type ->
  p1 = p2.
Proof.
  rewrite !generateMockCode_lookup.
  destruct (lookup language type) as [f|] eqn:E.
  - destruct (catalog_frames _ _ (lookup_in_Some _ _ _ E)) as (h & t & F).
    rewrite !F. intros H.
    apply append_cancel_l in H. exact (append_cancel_r _ _ _ H).
  - apply fallback_injective.
Qed.

Lemma render_injective_in_description_witness :
  generateMockCode "a stack" "rust" "test" =
  generateMockCode "a stack" "rust" "test" /\
  "a stack" = "a stack".
Proof.
  split.
  - reflexivity.
  - apply (render_injective_in_description "rust" "test"). reflexivity.
Defined.

End RenderingRoundTrip.

(** ** The renderer, by its syntax *)

Section RendererSyntax.
Import JS Page Syntax.

(** Run as written, in any surroundings, the body of [generateMockCode]
    returns what the function [generateMockCode] of this development
    gives for the three arguments, and makes no call for effect. *)
Lemma eval_lowerPrompt (w : World) (prompt language type : string) :
  eval w (combine generateMockCode_params
            [VString prompt; VString language; VString type])
    (ToLowerCase (Ident "prompt")) =
  Ok (VString (toLowerCase prompt)).
Proof. reflexivity. Qed.

Lemma eval_language_test (w : World) (prompt language type x : string) :
  eval w (body_scope prompt language type)
    (StrictEq (Ident "language") (Lit x)) =
  Ok (VBoolean (language =? x)).
Proof. reflexivity. Qed.

Lemma eval_type_test (w : World) (prompt language type x : string) :
  eval w (body_scope prompt language type)
    (StrictEq (Ident "type") (Lit x)) =
  Ok (VBoolean (type =? x)).
Proof. reflexivity. Qed.

Lemma eval_literals (w : World) (prompt language type : string) :
  eval w (body_scope prompt language type) Literal.javascript_function =
    Ok (VString (Template.javascript_function prompt)) /\
  eval w (body_scope prompt language type) Literal.javascript_api =
    Ok (VString (Template.javascript_api prompt)) /\
  eval w (body_scope prompt language type) Literal.python_function =
    Ok (VString (Template.python_function prompt)) /\
  eval w (body_scope prompt language type) Literal.python_class =
    Ok (VString (Template.python_class prompt)) /\
  eval w (body_scope prompt language type) Literal.java_class =
    Ok (VString (Template.java_class prompt)) /\
  eval w (body_scope prompt language type) Literal.fallback =
    Ok (VString (Template.fallback prompt language type)).
Proof. repeat split. Qed.

(** Run as written, in any surroundings, the body of [generateMockCode]
    returns what the function [generateMockCode] of this development
    gives for the three arguments, and makes no call for effect. *)
Lemma invoke_generateMockCode (w : World) (prompt language type : string) :
  invoke generateMockCode_params generateMockCode_body
    [VString prompt; VString language; VString type] w =
  (Ok (VString (generateMockCode prompt language type)), []).
Proof.
  destruct (eval_literals w prompt language type)
    as (E1 & E2 & E3 & E4 & E5 & E6).
  unfold invoke, generateMockCode_body, generateMockCode, when, next.
  cbn [exec]. rewrite eval_lowerPrompt.
  change ((("lowerPrompt", VString (toLowerCase prompt))
           :: combine generateMockCode_params
                [VString prompt; VString language; VString type]))
    with (body_scope prompt language type).
  destruct (language =? "javascript") eqn:J, (type =? "function") eqn:F,
    (type =? "api") eqn:A, (language =? "python") eqn:P,
    (type =? "class") eqn:C, (language =? "java") eqn:V;
    rewrite ?eval_language_test, ?eval_type_test, ?J, ?F, ?A, ?P, ?C, ?V;
    cbn [toBool];
    rewrite ?eval_language_test, ?eval_type_test, ?J, ?F, ?A, ?P, ?C, ?V,
      ?E1, ?E2, ?E3, ?E4, ?E5, ?E6;
    cbn [toBool app];
    rewrite ?eval_language_test, ?eval_type_test, ?J, ?F, ?A, ?P, ?C, ?V,
      ?E1, ?E2, ?E3, ?E4, ?E5, ?E6;
    cbn [toBool app];
    rewrite ?eval_language_test, ?eval_type_test, ?J, ?F, ?A, ?P, ?C, ?V,
      ?E1, ?E2, ?E3, ?E4, ?E5, ?E6;
    cbn [toBool app];
    rewrite ?eval_language_test, ?eval_type_test, ?J, ?F, ?A, ?P, ?C, ?V,
      ?E1, ?E2, ?E3, ?E4, ?E5, ?E6;
    reflexivity.
Qed.

(** The evaluator tells a renderer from bodies that read the clock, read
    the component or call a setter. *)

Example stamped_body_reads_clock :
  invoke generateMockCode_params stamped_body
    [VString "sum"; VString "go"; VString "test"]
    (mkWorld (fun _ => None) 1700000000000) <>
  invoke generateMockCode_params stamped_body
    [VString "sum"; VString "go"; VString "test"]
    (mkWorld (fun _ => None) 1700000002000).
Proof. intros H. vm_compute in H. discriminate H. Qed.

Example peeking_body_reads_component :
  invoke generateMockCode_params peeking_body
    [VString "sum"; VString "go"; VString "test"]
    (mkWorld (fun _ => Some (VString "rust")) 0) <>
  invoke generateMockCode_params peeking_body
    [VString "sum"; VString "go"; VString "test"]
    (mkWorld (fun _ => Some (VString "java")) 0).
Proof. intros H. vm_compute in H. discriminate H. Qed.

Example clearing_body_has_effect :
  snd (invoke generateMockCode_params clearing_body
         [VString "sum"; VString "go"; VString "test"]
         (mkWorld (fun _ => None) 0)) =
  [("setPrompt", VString EmptyString)].
Proof. reflexivity. Qed.

(** C8.  The renderer is deterministic and free of side effects.  Its
    body, run as written in any two surroundings (whatever the variables
    of the component and of the enclosing scopes hold, whatever the
    clock reads), returns equal strings for equal description, language
    and code type; the string is the one [generateMockCode] gives for
    the three arguments, and the run makes no call for effect. *)
Theorem renderer_reads_only_its_arguments (w1 w2 : World)
    (p1 l1 t1 p2 l2 t2 : string) :
  p1 = p2 -> l1 = l2 -> t1 = t2 ->
  invoke generateMockCode_params generateMockCode_body
    [VString p1; VString l1; VString t1] w1 =
  invoke generateMockCode_params generateMockCode_body
    [VString p2; VString l2; VString t2] w2 /\
  invoke generateMockCode_params generateMockCode_body
    [VString p1; VString l1; VString t1] w1 =
  (Ok (VString (generateMockCode p1 l1 t1)), []).
Proof.
  intros -> -> ->.
  rewrite !invoke_generateMockCode. split; reflexivity.
Qed.

Lemma renderer_reads_only_its_arguments_witness :
  "parse a date" = "parse a date" /\ "java" = "java" /\ "class" = "class" /\
  invoke generateMockCode_params generateMockCode_body
    [VString "parse a date"; VString "java"; VString "class"]
    (mkWorld (fun x => if x =? "prompt" then Some (VString "stale") else None)
       1700000000000) =
  invoke generateMockCode_params generateMockCode_body
    [VString "parse a date"; VString "java"; VString "class"]
    (mkWorld (fun _ => Some (VNumber 7)) 1700000002000).
Proof.
  split; [reflexivity|]. split; [reflexivity|]. split; [reflexivity|].
  apply (renderer_reads_only_its_arguments
           (mkWorld (fun x => if x =? "prompt" then Some (VString "stale") else None)
              1700000000000)
           (mkWorld (fun _ => Some (VNumber 7)) 1700000002000)
           "parse a date" "java" "class" "parse a date" "java" "class");
    reflexivity.
Defined.

End RendererSyntax.
